(** * mock-helper: the setuid helper of mock, embedded and verified

    A shallow embedding of [src/mock-helper.c].  The helper validates an
    argument vector and then replaces the process image by a trusted
    binary ([execve]); every failed check calls [error], which prints a
    diagnostic and exits with status 1.

    Conventions of the embedding:
    - a C string is the [string] of the bytes before its terminator (so
      no byte of it is NUL); [strlen] is [String.length];
    - a function that may call [error] returns a [res]: [Ret] for a normal
      return, [Fatal] for [error], [Exec] for a reached [execve], and
      [Undef] where the C program leaves defined behaviour and nothing
      can be said (a null pointer handed to a string function, a read
      that traps);
    - system calls are answered by a snapshot [World] of the operating
      system; the calls that change it are recorded, in order, in a trace
      of [event]s threaded through the monad [M];
    - [strdup] is taken to succeed.

    Embedded are the path checks ([check_allowed], [check_dir_allowed],
    [check_file_allowed]), the executor [do_command], the twelve
    subcommands, the orphan reaper ([read_cmdline], [orphanskill_pid],
    [do_orphanskill]), and [usage] and [main]. *)

From Stdlib Require Import ZArith Ascii String DecimalString Lia.
From Stdlib Require DecimalPos DecimalFacts.
From stdpp Require Import base list strings.

Open Scope Z_scope.

(** ** C strings *)

Module CString.

Definition strlen (s : string) : nat := String.length s.

(** The value of a byte as [unsigned char]. *)
Definition uchar (c : ascii) : Z := Z.of_N (N_of_ascii c).

(** [strncmp s1 s2 n]: compare at most [n] bytes, the terminator
    included; the sign of the result is the order of the first
    difference. *)
Fixpoint strncmp (s1 s2 : string) (n : nat) {struct n} : Z :=
  match n with
  | O => 0
  | S n' =>
    match s1, s2 with
    | EmptyString, EmptyString => 0
    | EmptyString, String c2 _ => 0 - uchar c2
    | String c1 _, EmptyString => uchar c1 - 0
    | String c1 r1, String c2 r2 =>
      if Ascii.eqb c1 c2 then strncmp r1 r2 n' else uchar c1 - uchar c2
    end
  end.

(** [strstr hay needle]: offset of the first occurrence of [needle] in
    [hay], [None] for the null pointer. *)
Fixpoint strstr (hay needle : string) : option nat :=
  if String.prefix needle hay then Some O
  else match hay with
       | EmptyString => None
       | String _ rest => S <$> strstr rest needle
       end.

(** [s[i]] for a string held in an array of exactly [strlen s + 1]
    bytes: a byte of [s], the terminator at index [strlen s], and
    [None] for an index outside the array. *)
Definition char_at (s : string) (i : Z) : option ascii :=
  if decide (0 <= i < Z.of_nat (strlen s)) then String.get (Z.to_nat i) s
  else if decide (i = Z.of_nat (strlen s)) then Some Ascii.zero
  else None.

(** [memcmp b1 b2 n] over the initialised bytes of two buffers; reading
    past either is not defined. *)
Fixpoint memcmp (b1 b2 : string) (n : nat) {struct n} : option Z :=
  match n with
  | O => Some 0
  | S n' =>
    match b1, b2 with
    | String c1 r1, String c2 r2 =>
      if Ascii.eqb c1 c2 then memcmp r1 r2 n' else Some (uchar c1 - uchar c2)
    | _, _ => None
    end
  end.

(** A [char *] into a string: the string it points into and the offset. *)
Record cptr : Type := { base : string; off : Z }.

Definition ptr_sub (p : cptr) (n : Z) : cptr :=
  {| base := base p; off := off p - n |}.

(** The string a pointer denotes, [None] when it points outside. *)
Definition string_at (p : cptr) : option string :=
  if decide (0 <= off p <= Z.of_nat (strlen (base p)))
  then Some (String.substring (Z.to_nat (off p))
                              (strlen (base p) - Z.to_nat (off p)) (base p))
  else None.

(** [getenv]: the first entry of the environment that reads [name=...];
    the pointer returned is the one behind the equals sign. *)
Fixpoint getenv (environ : list string) (name : string) : option cptr :=
  match environ with
  | [] => None
  | entry :: rest =>
    if (strncmp entry name (strlen name) =? 0)
       && bool_decide (char_at entry (Z.of_nat (strlen name)) = Some "="%char)
    then Some {| base := entry; off := Z.of_nat (strlen name) + 1 |}
    else getenv rest name
  end.

Definition isdigit (c : ascii) : bool := (48 <=? uchar c) && (uchar c <=? 57).

(** Space, and the five controls from tab to carriage return. *)
Definition isspace (c : ascii) : bool :=
  (uchar c =? 32) || ((9 <=? uchar c) && (uchar c <=? 13)).

Definition INT_MAX : Z := 2147483647.

(** The value of the leading digits of [s], continuing from [acc]. *)
Fixpoint digits_value (s : string) (acc : Z) : Z :=
  match s with
  | String c rest =>
    if isdigit c then digits_value rest (10 * acc + (uchar c - 48)) else acc
  | EmptyString => acc
  end.

(** [atoi] on a string that starts with a digit (the only use the helper
    makes of it); [None] when the value does not fit an [int]. *)
Definition atoi (s : string) : option Z :=
  let v := digits_value s 0 in
  if v <=? INT_MAX then Some v else None.

(** The conversion ["%d"] of [printf]. *)
Definition fmt_d (n : Z) : string := NilZero.string_of_int (Z.to_int n).

End CString.
Import CString.

(** ** Outcomes, events and the monad *)

(** The diagnostics of [error], by the check that raises them. *)
Inductive error : Type :=
| OutsideRoot          (* "%s: not under allowed directory" *)
| TraversalAttempt     (* "%s: contains '..'" *)
| TrailingSeparator    (* "%s: ends with '/'" *)
| LookupFailed         (* "%s: %s", strerror (errno) after lstat *)
| IsSymlink            (* "%s: symbolic link" *)
| NotADirectory        (* "%s: not a directory" *)
| NotARegularFile      (* "%s: not a regular file" *)
| ArgumentCountError   (* "not enough arguments", "No directory given for chroot !" *)
| UnrecognizedOption   (* "%s: options not allowed" *)
| UnallowedMountType   (* "unallowed mount type" *)
| MountNotAllowed      (* "proc: mount not allowed on %s" and its siblings *)
| ChdirFailed          (* "could not change dir" *)
| SelfChrooted         (* "We as PID %d should not be chrooted" *)
| AllocFailed          (* "malloc (%lu): %s" *)
| OpendirFailed.       (* the diagnostic of a failed opendir on /proc *)

Inductive res (A : Type) : Type :=
| Ret (a : A)
| Fatal (e : error)
| Undef
| Exec (filename : string) (argv : list string) (envp : list (option string)).
Arguments Ret {A} a.
Arguments Fatal {A} e.
Arguments Undef {A}.
Arguments Exec {A} filename argv envp.

Definition res_bind {A B} (m : res A) (k : A -> res B) : res B :=
  match m with
  | Ret a => k a
  | Fatal e => Fatal e
  | Undef => Undef
  | Exec f a e => Exec f a e
  end.

Inductive warning : Type :=
| WOpen (fname : string)
| WRead (fname : string)
| WClose (fname : string)
| WKilled (pid : Z) (cmdline : string)
| WKill (pid : Z)
| WProcRoot (pid : Z).

Inductive event : Type :=
| EvSetreuid
| EvPrintf (msg : string)
| EvWarning (w : warning)
| EvChdir (path : string)
| EvMkdir (path : string) (mode : Z)
| EvChown (path : string) (uid gid : Z)
| EvKill (pid : Z) (sig : Z).

Definition M (A : Type) : Type := list event -> res A * list event.

Definition ret {A} (a : A) : M A := fun tr => (Ret a, tr).
Definition lift {A} (r : res A) : M A := fun tr => (r, tr).
Definition emit (e : event) : M unit := fun tr => (Ret tt, tr ++ [e]).
Definition bind {A B} (m : M A) (k : A -> M B) : M B :=
  fun tr =>
    match m tr with
    | (Ret a, tr') => k a tr'
    | (Fatal e, tr') => (Fatal e, tr')
    | (Undef, tr') => (Undef, tr')
    | (Exec f a e, tr') => (Exec f a e, tr')
    end.

Declare Scope helper_scope.
Delimit Scope helper_scope with helper.
Notation "x <- m ;; k" := (bind m (fun x => k))
  (at level 100, m at next level, right associativity) : helper_scope.
Notation "m ;; k" := (bind m (fun _ => k))
  (at level 100, right associativity) : helper_scope.
Notation "x <~ m ;; k" := (res_bind m (fun x => k))
  (at level 100, m at next level, right associativity) : helper_scope.
Notation "m ;;~ k" := (res_bind m (fun _ => k))
  (at level 100, right associativity) : helper_scope.
Open Scope helper_scope.

(** [error (...)] where nothing is returned. *)
Definition error_if (b : bool) (e : error) : res unit :=
  if b then Fatal e else Ret tt.

(** What a run did, started with an empty trace. *)
Definition outcome {A} (m : M A) : res A := fst (m []).
Definition effects {A} (m : M A) : list event := snd (m []).

(** ** Configuration and operating system *)

(** The values [config.h] and the build fix. *)
Record Config : Type := {
  ROOTSDIR : string;
  USE_SELINUX : bool
}.

Record dirent : Type := {
  d_type : Z;
  d_name : string
}.

(** A snapshot of what the system calls of the helper answer. *)
Record World : Type := {
  (* the byte the machine finds at [rootsdir[i]] for an index outside the
     array of the string, [None] if that read traps *)
  beyond_rootsdir : Z -> option ascii;
  (* [lstat]: the [st_mode] of the entry, [None] for a non-zero return *)
  lstat : string -> option Z;
  (* the return value of [chdir] *)
  chdir : string -> Z;
  (* libc's [dirname] *)
  dirname : string -> string;
  (* [getgrnam ("mock")]: the group id, [None] for the null pointer *)
  getgrnam_mock : option Z;
  (* the caller's environment, entries of the shape NAME=value *)
  environ : list string;
  is_selinux_enabled : Z;
  getpid : Z;
  (* [malloc] succeeds *)
  malloc_ok : bool;
  (* [opendir ("/proc")] and the entries [readdir] then yields *)
  proc_entries : option (list dirent);
  (* the target of a symbolic link, [None] where [readlink] fails *)
  readlink_target : string -> option string;
  (* [open] and [read] of a file: [None] if [open] fails, [Some None] if
     [read] fails, else the bytes read *)
  read_file : string -> option (option string);
  (* the return value of [close] on that file *)
  close_file : string -> Z;
  (* the return value of [kill (pid, SIGKILL)] *)
  kill : Z -> Z
}.

(** ** The path checks *)

Section Checks.
Context (cfg : Config) (os : World).

Let rootsdir : string := ROOTSDIR cfg.

(** [rootsdir[i]].  Inside the array it is a byte of the string or its
    terminator.  Outside, C gives the read no meaning; the machine reads
    what lies next to the array, which the [World] tells. *)
Definition rootsdir_at (i : Z) : option ascii :=
  match char_at rootsdir i with
  | Some c => Some c
  | None => beyond_rootsdir os i
  end.

(** [check_allowed], lines 83-100.  The last test reads [rootsdir], not
    [given], at index [strlen (given) - 1]; for the empty string the
    index wraps around to [SIZE_MAX], which like [-1] here lies outside
    every array. *)
Definition check_allowed (given : string) : res unit :=
  (* does given start with rootsdir ? *)
  error_if (negb (strncmp given rootsdir (strlen rootsdir) =? 0)) OutsideRoot ;;~
  (* does it try to fool us by using .. ? *)
  error_if (bool_decide (strstr given ".." <> None)) TraversalAttempt ;;~
  (* does it try to fool us into following symlinks by having a trailing / ? *)
  match rootsdir_at (Z.of_nat (strlen given) - 1) with
  | None => Undef
  | Some last => error_if (Ascii.eqb last "/") TrailingSeparator
  end.

(** The file type bits of [st_mode]: [S_IFMT] is 0170000, [S_IFLNK]
    0120000, [S_IFDIR] 0040000 and [S_IFREG] 0100000 (octal). *)
Definition S_IFMT : Z := 0xF000.
Definition S_IFLNK : Z := 0xA000.
Definition S_IFDIR : Z := 0x4000.
Definition S_IFREG : Z := 0x8000.
Definition S_ISLNK (m : Z) : bool := Z.land m S_IFMT =? S_IFLNK.
Definition S_ISDIR (m : Z) : bool := Z.land m S_IFMT =? S_IFDIR.
Definition S_ISREG (m : Z) : bool := Z.land m S_IFMT =? S_IFREG.

(** [check_dir_allowed], lines 109-128. *)
Definition check_dir_allowed (given : string) : res unit :=
  check_allowed given ;;~
  match lstat os given with
  | None => Fatal LookupFailed
  | Some st_mode =>
    error_if (S_ISLNK st_mode) IsSymlink ;;~
    error_if (negb (S_ISDIR st_mode)) NotADirectory
  end.

(** [check_file_allowed], lines 136-155. *)
Definition check_file_allowed (given : string) : res unit :=
  check_allowed given ;;~
  match lstat os given with
  | None => Fatal LookupFailed
  | Some st_mode =>
    error_if (S_ISLNK st_mode) IsSymlink ;;~
    error_if (negb (S_ISREG st_mode)) NotARegularFile
  end.

End Checks.

(** ** The privileged executor *)

Definition ALLOWED_ENV : list string :=
  [ "dist";
    "ftp_proxy"; "http_proxy"; "https_proxy"; "no_proxy"; "PS1" ].

Definition ALLOWED_ENV_SIZE : nat := length ALLOWED_ENV.

(** The array [env] of [do_command] and the index [idx] into it. *)
Definition env_state : Type := list (option string) * nat.

(** [env[idx++] = ptr]; a store outside the array is not defined. *)
Definition env_store (st : env_state) (ptr : cptr) : res env_state :=
  let '(env, idx) := st in
  match string_at ptr with
  | None => Undef
  | Some s =>
    if decide (idx < length env)%nat
    then Ret (<[idx := Some s]> env, S idx)
    else Undef
  end.

(** A [for] loop over the elements of an array, with its state. *)
Fixpoint for_each {S A : Type} (body : S -> A -> res S) (l : list A) (st : S)
  : res S :=
  match l with
  | [] => Ret st
  | a :: l' => st' <~ body st a ;; for_each body l' st'
  end.

(** The element [argv[i]] used as a string: index [argc] holds the null
    pointer and larger ones lie outside the vector. *)
Definition str (argv : list string) (i : nat) : res string :=
  match argv !! i with
  | Some s => Ret s
  | None => Undef
  end.

(** [strncmp (lit, argv[i], n) == 0] *)
Definition arg_matches (lit : string) (argv : list string) (i n : nat)
  : res bool :=
  s <~ str argv i ;; Ret (strncmp lit s n =? 0).

(** The short-circuit [&&] of C. *)
Definition and_then (a b : res bool) : res bool :=
  x <~ a ;; if x then b else Ret false.

Definition argc_of (argv : list string) : Z := Z.of_nat (length argv).

Section Commands.
Context (cfg : Config) (os : World).

Let rootsdir : string := ROOTSDIR cfg.

(** The body of the loop over [ALLOWED_ENV], lines 199-205. *)
Definition copy_allowed (st : env_state) (name : string) : res env_state :=
  match getenv (environ os) name with
  | None => Ret st
  | Some ptr => env_store st (ptr_sub ptr (Z.of_nat (strlen name) + 1))
  end.

(** [do_command], lines 159-209.  [Exec] carries the whole array [env]
    as [execve] receives it; when [execve] returns, [error] ends the
    process, so nothing follows an [Exec].  [EvPrintf] holds the line
    printed, without its newline. *)
Definition do_command (filename : string) (argv : list string)
    (use_selinux_preload : Z) : M unit :=
  let env : list (option string) :=
    <[1%nat := Some "HOME=/root"]>
      (<[0%nat := Some "PATH=/bin:/usr/bin:/usr/sbin"]>
         (replicate (3 + ALLOWED_ENV_SIZE) None)) in
  let idx : nat := 2%nat in
  (* elevate privileges *)
  emit EvSetreuid ;;
  st <- (if USE_SELINUX cfg
            && ((is_selinux_enabled os >? 0) && (use_selinux_preload =? 1))
         then
           let ld_preload := "LD_PRELOAD=libselinux-mock.so" in
           emit (EvPrintf ("adding ld_preload of " +:+ ld_preload)) ;;
           lift (env_store (env, idx) {| base := ld_preload; off := 0 |})
         else ret (env, idx)) ;;
  st <- lift (for_each copy_allowed ALLOWED_ENV st) ;;
  lift (Exec filename argv (fst st)).

(** [do_chroot], lines 216-227. *)
Definition do_chroot (argc : Z) (argv : list string) : M unit :=
  lift (error_if (argc <? 3) ArgumentCountError) ;;
  lift (a2 <~ str argv 2 ;; check_dir_allowed cfg os a2) ;;
  do_command "/usr/sbin/chroot" (drop 1 argv) 0.

(** [do_mount], lines 235-268. *)
Definition do_mount (argc : Z) (argv : list string) : M unit :=
  lift (error_if (argc <? 5) ArgumentCountError) ;;
  lift (
    is_proc <~ and_then (arg_matches "-t" argv 2 2)
                        (arg_matches "proc" argv 3 4) ;;
    if is_proc then
      (* see if we're mounting proc to somewhere in rootsdir *)
      ok <~ arg_matches rootsdir argv 5 (strlen rootsdir) ;;
      error_if (negb ok) MountNotAllowed
    else
      is_devpts <~ and_then (arg_matches "-t" argv 2 2)
                            (arg_matches "devpts" argv 3 6) ;;
      if is_devpts then
        if argc <? 5 then Fatal ArgumentCountError
        else
          ok <~ arg_matches rootsdir argv 5 (strlen rootsdir) ;;
          error_if (negb ok) MountNotAllowed
      else
        is_bind <~ and_then (arg_matches "--bind" argv 2 6)
                            (arg_matches "/dev" argv 3 4) ;;
        if is_bind then
          (* make sure we're only mounting /dev in the chroot *)
          ok <~ arg_matches rootsdir argv 4 (strlen rootsdir) ;;
          error_if (negb ok) MountNotAllowed
        else Fatal UnallowedMountType) ;;
  (* all checks passed, execute *)
  do_command "/bin/mount" (drop 1 argv) 0.

(** [do_rm], lines 271-287. *)
Definition do_rm (argc : Z) (argv : list string) : M unit :=
  lift (error_if (argc <? 4) ArgumentCountError) ;;
  lift (ok <~ arg_matches "-rf" argv 2 4 ;;
        error_if (negb ok) UnrecognizedOption) ;;
  lift (a3 <~ str argv 3 ;; check_dir_allowed cfg os a3) ;;
  do_command "/bin/rm" (drop 1 argv) 0.

(** [do_rpm], lines 290-306. *)
Definition do_rpm (argc : Z) (argv : list string) : M unit :=
  lift (error_if (argc <? 4) ArgumentCountError) ;;
  lift (ok <~ arg_matches "--root" argv 2 6 ;;
        error_if (negb ok) UnrecognizedOption) ;;
  lift (a3 <~ str argv 3 ;; check_dir_allowed cfg os a3) ;;
  do_command "/bin/rpm" (drop 1 argv) 0.

(** [do_yum], lines 309-325. *)
Definition do_yum (argc : Z) (argv : list string) : M unit :=
  lift (error_if (argc <? 4) ArgumentCountError) ;;
  lift (ok <~ arg_matches "--installroot" argv 2 6 ;;
        error_if (negb ok) UnrecognizedOption) ;;
  lift (a3 <~ str argv 3 ;; check_dir_allowed cfg os a3) ;;
  do_command "/usr/libexec/mock-yum" (drop 1 argv) 1.

(** [do_umount], lines 329-341. *)
Definition do_umount (argc : Z) (argv : list string) : M unit :=
  lift (error_if (argc <? 3) ArgumentCountError) ;;
  lift (a2 <~ str argv 2 ;; check_dir_allowed cfg os a2) ;;
  do_command "/bin/umount" (drop 1 argv) 1.

(** [do_pack], lines 404-449.  [0750] is the mode in octal. *)
Definition do_pack (argc : Z) (argv : list string) : M unit :=
  lift (error_if (argc <? 5) ArgumentCountError) ;;
  a2 <- lift (str argv 2) ;;
  lift (check_dir_allowed cfg os a2) ;;
  emit (EvChdir a2) ;;
  lift (error_if (negb (chdir os a2 =? 0)) ChdirFailed) ;;
  (* create root-cache dir with appropriate perms *)
  let gr := getgrnam_mock os in
  a3 <- lift (str argv 3) ;;
  let cache_dir := dirname os a3 in
  lift (check_dir_allowed cfg os cache_dir) ;;
  emit (EvMkdir cache_dir 0x1E8) ;;
  match gr with
  | Some gr_gid => emit (EvChown cache_dir 0 gr_gid)
  | None => ret tt
  end ;;
  (* select compression *)
  let flag :=
    if bool_decide (strstr a3 ".bz2" <> None) then "-jcf"
    else if bool_decide (strstr a3 ".gz" <> None) then "-zcf"
    else "-cf" in
  new_argv <- lift (
    match argv !! 4%nat with
    | Some a4 => Ret ["tar"; "--one-file-system"; flag; a3; a4]
    | None =>
      if decide (length argv = 4%nat)
      then Ret ["tar"; "--one-file-system"; flag; a3]
      else Undef
    end) ;;
  do_command "/bin/tar" new_argv 0.

End Commands.

(** ** The orphan reaper *)

Definition DT_DIR : Z := 4.
Definition SIGKILL : Z := 9.

(** The loop over [d_name] that stops at the terminator or at the first
    byte that is no digit: the offset at which [cs] stops. *)
Fixpoint skip_digits (s : string) : nat :=
  match s with
  | String c rest => if isdigit c then S (skip_digits rest) else O
  | EmptyString => O
  end.

(** The two loops at the end of [read_cmdline]: NULs become spaces, the
    trailing white space is cut. *)
Definition nul_to_space (c : ascii) : ascii :=
  if Ascii.eqb c Ascii.zero then " "%char else c.

Fixpoint map_string (f : ascii -> ascii) (s : string) : string :=
  match s with
  | EmptyString => EmptyString
  | String c rest => String (f c) (map_string f rest)
  end.

Fixpoint trim_right (s : string) : string :=
  match s with
  | EmptyString => EmptyString
  | String c rest =>
    match trim_right rest with
    | EmptyString => if isspace c then EmptyString else String c EmptyString
    | t => String c t
    end
  end.

Section Reaper.
Context (cfg : Config) (os : World).

(** [read_cmdline], lines 483-515. *)
Definition read_cmdline (pid : Z) : M (option string) :=
  let cmdline_fname := "/proc/" +:+ fmt_d pid +:+ "/cmdline" in
  match read_file os cmdline_fname with
  | None => emit (EvWarning (WOpen cmdline_fname)) ;; ret None
  | Some got =>
    match got with
    | None => emit (EvWarning (WRead cmdline_fname))
    | Some _ => ret tt
    end ;;
    (if close_file os cmdline_fname =? 0 then ret tt
     else emit (EvWarning (WClose cmdline_fname))) ;;
    match got with
    | None => ret None
    | Some cmdline => ret (Some (trim_right (map_string nul_to_space cmdline)))
    end
  end.

(** [orphanskill_pid], lines 517-537. *)
Definition orphanskill_pid (pid : Z) : M unit :=
  (* Should not happen.  *)
  lift (error_if (pid =? getpid os) SelfChrooted) ;;
  got <- read_cmdline pid ;;
  let cmdline := match got with Some c => c | None => "<error>" end in
  emit (EvWarning (WKilled pid cmdline)) ;;
  emit (EvKill pid SIGKILL) ;;
  if kill os pid =? 0 then ret tt
  else (* It may just be a race.  *) emit (EvWarning (WKill pid)).

(** [readlink (path, buf, bufsiz)]: the bytes placed in [buf], at most
    [bufsiz] of the target; [None] for the return value -1. *)
Definition readlink (path : string) (bufsiz : nat) : option string :=
  String.substring 0 bufsiz <$> readlink_target os path.

(** The body of the [readdir] loop of [do_orphanskill], lines 565-604. *)
Definition orphanskill_entry (chrootdir : string) (chrootdir_len : nat)
    (ent : dirent) : M unit :=
  if negb (d_type ent =? DT_DIR) then ret tt
  else
    (* Check /^\d+$/:  *)
    let cs := skip_digits (d_name ent) in
    if bool_decide (cs = O)
       || negb (bool_decide (char_at (d_name ent) (Z.of_nat cs) = Some Ascii.zero))
    then ret tt
    else
      match atoi (d_name ent) with
      | None => lift Undef
      | Some pid =>
        let proc_root := "/proc/" +:+ fmt_d pid +:+ "/root" in
        let proc_root_got := Z.of_nat (strlen proc_root) in
        if (proc_root_got <=? 0) || (proc_root_got >=? 64)
        then emit (EvWarning (WProcRoot pid))
        else
          match readlink proc_root chrootdir_len with
          | None => (* Errors may occur due to races.  *) ret tt
          | Some link_buf =>
            if negb (strlen link_buf =? chrootdir_len - 1)%nat then ret tt
            else
              match memcmp link_buf chrootdir (chrootdir_len - 1) with
              | None => lift Undef
              | Some d => if negb (d =? 0) then ret tt else orphanskill_pid pid
              end
          end
      end.

(** The [while ((dirent = readdir (dir)))] loop. *)
Fixpoint orphanskill_scan (chrootdir : string) (chrootdir_len : nat)
    (ents : list dirent) : M unit :=
  match ents with
  | [] => ret tt
  | ent :: rest =>
    orphanskill_entry chrootdir chrootdir_len ent ;;
    orphanskill_scan chrootdir chrootdir_len rest
  end.

(** [do_orphanskill], lines 539-605. *)
Definition do_orphanskill (argc : Z) (argv : list string) : M unit :=
  lift (error_if (argc <? 3) ArgumentCountError) ;;
  chrootdir <- lift (str argv 2) ;;
  (* do we allow this dir ? *)
  lift (check_dir_allowed cfg os chrootdir) ;;
  let chrootdir_len := (strlen chrootdir + 1)%nat in
  lift (error_if (negb (malloc_ok os)) AllocFailed) ;;
  match proc_entries os with
  | None => lift (Fatal OpendirFailed)
  | Some ents => orphanskill_scan chrootdir chrootdir_len ents
  end.

End Reaper.


(** ** Sample configuration and system

    The root of a stock build, and a system on which the root and one
    chroot below it are directories, the caller has set all the variables
    the helper passes on (and two it must drop), the memory next to the
    literal of the root is zero, and one process is left in the chroot. *)

Definition sample_cfg : Config :=
  {| ROOTSDIR := "/var/lib/mock"; USE_SELINUX := true |}.

(** The path up to its last separator, [None] if it has none. *)
Fixpoint cut_last_component (s : string) : option string :=
  match s with
  | EmptyString => None
  | String c rest =>
    match cut_last_component rest with
    | Some d => Some (String c d)
    | None => if Ascii.eqb c "/" then Some EmptyString else None
    end
  end.

(** [dirname] on a path without trailing or doubled separators. *)
Definition sample_dirname (path : string) : string :=
  match cut_last_component path with
  | Some EmptyString => "/"
  | Some d => d
  | None => "."
  end.

Definition sample_os : World :=
  {| beyond_rootsdir := fun _ => Some Ascii.zero;
     lstat := fun p =>
       if String.eqb p "/var/lib/mock" || String.eqb p "/var/lib/mock/fedora"
       then Some (Z.lor S_IFDIR 0x1ED) else None;
     chdir := fun _ => 0;
     dirname := sample_dirname;
     getgrnam_mock := Some 135;
     environ := [ "LD_LIBRARY_PATH=/tmp/evil"; "dist=.fc5"; "PS1=$ ";
                  "http_proxy=http://proxy:3128"; "https_proxy=http://proxy:3128";
                  "ftp_proxy=http://proxy:3128"; "no_proxy=localhost";
                  "IFS=x" ];
     is_selinux_enabled := 1;
     getpid := 4711;
     malloc_ok := true;
     proc_entries :=
       Some [ {| d_type := DT_DIR; d_name := "1" |};
              {| d_type := DT_DIR; d_name := "self" |};
              {| d_type := DT_DIR; d_name := "42" |};
              {| d_type := DT_DIR; d_name := "43" |} ];
     readlink_target := fun p =>
       if String.eqb p "/proc/42/root" then Some "/var/lib/mock/fedora"
       else if String.eqb p "/proc/43/root" then Some "/var/lib/mock/fedora/builddir"
       else Some "/";
     read_file := fun _ => Some (Some "sleep");
     close_file := fun _ => 0;
     kill := fun _ => 0 |}.

(** No byte of the string is NUL. *)
Fixpoint nonul (s : string) : bool :=
  match s with
  | EmptyString => true
  | String c rest => negb (Ascii.eqb c Ascii.zero) && nonul rest
  end.

Fixpoint last_char (s : string) : option ascii :=
  match s with
  | EmptyString => None
  | String c EmptyString => Some c
  | String _ rest => last_char rest
  end.

(** The path names an entry of the tree below [root]: [root] itself, or
    [root] continued across a path separator. *)
Definition in_subtree (root p : string) : Prop :=
  exists rest,
    p = root +:+ rest
    /\ (rest = EmptyString \/ String.prefix "/" rest = true
        \/ last_char root = Some "/"%char).

(** The MAC preload is asked for and active. *)
Definition mac_preload (cfg : Config) (os : World) (use_selinux_preload : Z)
  : bool :=
  USE_SELINUX cfg
  && ((is_selinux_enabled os >? 0) && (use_selinux_preload =? 1)).

(** The entry of the caller's environment that sets [name], if one does. *)
Definition caller_entry (environ : list string) (name : string)
  : option string :=
  List.find (fun entry => String.prefix (name +:+ "=") entry) environ.

(** The sanitized environment in the words of the specification: the
    fixed PATH and HOME, the preload variable if MAC is enabled and the
    operation opted in, then the caller's entry for each allow-listed name
    that is set. *)
Definition SanitizedEnvironment (mac : bool) (environ : list string)
  : list string :=
  [ "PATH=/bin:/usr/bin:/usr/sbin"; "HOME=/root" ]
  ++ (if mac then [ "LD_PRELOAD=libselinux-mock.so" ] else [])
  ++ omap (caller_entry environ) ALLOWED_ENV.

(** The option pair of a mount request is one the helper lets through:
    each token is compared over the length of the literal only. *)
Definition mount_type_allowed (a2 a3 : string) : bool :=
  (String.prefix "-t" a2 && String.prefix "proc" a3)
  || (String.prefix "-t" a2 && String.prefix "devpts" a3)
  || (String.prefix "--bind" a2 && String.prefix "/dev" a3).

(** The array [env] of [do_command] once filled: the entries, then null
    pointers up to its [3 + ALLOWED_ENV_SIZE] slots. *)
Definition env_array (filled : list string) : list (option string) :=
  (Some <$> filled) ++ replicate (3 + ALLOWED_ENV_SIZE - length filled) None.

(** Every [kill] among the events a computation adds to the trace goes,
    with [SIGKILL], to a process that satisfies [P]. *)
Definition kills_only (P : Z -> Prop) {A : Type} (m : M A) : Prop :=
  forall tr, exists evs,
    (m tr).2 = tr ++ evs
    /\ forall pid sig, EvKill pid sig ∈ evs -> P pid /\ sig = SIGKILL.

(** ** The remaining subcommands and the entry point *)

(** The loop [for (i = ...; i < argc; i++) check_allowed (argv[i]);] of
    [do_chown] and [do_chmod], at index [i] with [count] rounds to go. *)
Fixpoint check_each (cfg : Config) (os : World) (argv : list string)
    (i count : nat) : res unit :=
  match count with
  | O => Ret tt
  | S count' =>
    (given <~ str argv i ;; check_allowed cfg os given) ;;~
    check_each cfg os argv (S i) count'
  end.

(** How [main] itself ends the process: [usage] and its [exit (1)], the
    [error] for a command that is not recognized, or the final
    [exit (0)]. *)
Inductive main_end : Type :=
| ExitUsage
| ExitNotRecognized
| ExitSuccess.

Section MoreCommands.
Context (cfg : Config) (os : World).

Let rootsdir : string := ROOTSDIR cfg.

(** [usage], lines 44-49. *)
Definition usage : M main_end :=
  emit (EvPrintf "Usage: mock-helper [command]") ;;
  ret ExitUsage.

(** [do_mknod], lines 344-371.  The separator test reads [argv[2]]
    itself; for the empty string its index lies before the string. *)
Definition do_mknod (argc : Z) (argv : list string) : M unit :=
  lift (error_if (argc <? 8) ArgumentCountError) ;;
  a2 <- lift (str argv 2) ;;
  (* check given file *)
  lift (error_if (negb (strncmp a2 rootsdir (strlen rootsdir) =? 0))
                 OutsideRoot) ;;
  (* does it try to fool us by using .. ? *)
  lift (error_if (bool_decide (strstr a2 ".." <> None)) TraversalAttempt) ;;
  (* does it have a trailing / ? *)
  lift (match char_at a2 (Z.of_nat (strlen a2) - 1) with
        | None => Undef
        | Some last => error_if (Ascii.eqb last "/") TrailingSeparator
        end) ;;
  (* -m *)
  lift (ok <~ arg_matches "-m" argv 3 2 ;;
        error_if (negb ok) UnrecognizedOption) ;;
  do_command cfg os "/bin/mknod" (drop 1 argv) 0.

(** [do_unpack], lines 373-401. *)
Definition do_unpack (argc : Z) (argv : list string) : M unit :=
  lift (error_if (argc <? 4) ArgumentCountError) ;;
  a2 <- lift (str argv 2) ;;
  lift (check_dir_allowed cfg os a2) ;;
  emit (EvChdir a2) ;;
  lift (error_if (negb (chdir os a2 =? 0)) ChdirFailed) ;;
  a3 <- lift (str argv 3) ;;
  (* select compression *)
  let flag :=
    if bool_decide (strstr a3 ".bz2" <> None) then "-jxpf"
    else if bool_decide (strstr a3 ".gz" <> None) then "-zxpf"
    else "-xpf" in
  do_command cfg os "/bin/tar" ["tar"; "--same-owner"; flag; a3] 0.

(** [do_chown], lines 451-465. *)
Definition do_chown (argc : Z) (argv : list string) : M unit :=
  lift (error_if (argc <? 4) ArgumentCountError) ;;
  (* verify files are legal *)
  lift (check_each cfg os argv 3 (Z.to_nat (argc - 3))) ;;
  do_command cfg os "/bin/chown" (drop 1 argv) 1.

(** [do_chmod], lines 467-481. *)
Definition do_chmod (argc : Z) (argv : list string) : M unit :=
  lift (error_if (argc <? 4) ArgumentCountError) ;;
  (* verify files are legal *)
  lift (check_each cfg os argv 3 (Z.to_nat (argc - 3))) ;;
  do_command cfg os "/bin/chmod" (drop 1 argv) 1.

(** A branch of [main], followed by the [exit (0)] that ends it. *)
Definition then_exit (command : M unit) : M main_end :=
  command ;; ret ExitSuccess.

(** [main], lines 607-645: the chain of comparisons on [argv[1]], each
    over the length of the command name. *)
Definition main (argc : Z) (argv : list string) : M main_end :=
  (* verify input *)
  if argc <? 2 then usage
  else
    a1 <- lift (str argv 1) ;;
    (* see which command we are trying to run *)
    if strncmp "chroot" a1 6 =? 0 then then_exit (do_chroot cfg os argc argv)
    else if strncmp "mount" a1 5 =? 0 then then_exit (do_mount cfg os argc argv)
    else if strncmp "rm" a1 2 =? 0 then then_exit (do_rm cfg os argc argv)
    else if strncmp "umount" a1 6 =? 0 then then_exit (do_umount cfg os argc argv)
    else if strncmp "rpm" a1 3 =? 0 then then_exit (do_rpm cfg os argc argv)
    else if strncmp "mknod" a1 5 =? 0 then then_exit (do_mknod argc argv)
    else if strncmp "yum" a1 3 =? 0 then then_exit (do_yum cfg os argc argv)
    else if strncmp "unpack" a1 6 =? 0 then then_exit (do_unpack argc argv)
    else if strncmp "pack" a1 4 =? 0 then then_exit (do_pack cfg os argc argv)
    else if strncmp "chown" a1 5 =? 0 then then_exit (do_chown argc argv)
    else if strncmp "chmod" a1 5 =? 0 then then_exit (do_chmod argc argv)
    else if strncmp "orphanskill" a1 11 =? 0
    then then_exit (do_orphanskill cfg os argc argv)
    else ret ExitNotRecognized.

End MoreCommands.

(** [needle] occurs in [hay]. *)
Definition contains (needle hay : string) : Prop :=
  exists pre post, hay = pre +:+ needle +:+ post.

(** The subcommands that take a directory, with the position of that
    argument. *)
Definition directory_commands (cfg : Config) (os : World)
  : list ((Z -> list string -> M unit) * nat) :=
  [ (do_chroot cfg os, 2%nat); (do_umount cfg os, 2%nat);
    (do_rm cfg os, 3%nat); (do_rpm cfg os, 3%nat); (do_yum cfg os, 3%nat);
    (do_unpack cfg os, 2%nat); (do_pack cfg os, 2%nat) ].

(** What [do_pack] may do to the file system: change to, create (with
    mode 0750) or hand to root and a group a path that has passed
    [check_dir_allowed]; it signals no process. *)
Definition pack_event_ok (cfg : Config) (os : World) (ev : event) : Prop :=
  match ev with
  | EvChdir path => check_dir_allowed cfg os path = Ret tt
  | EvMkdir path mode => check_dir_allowed cfg os path = Ret tt /\ mode = 0x1E8
  | EvChown path uid gid =>
    check_dir_allowed cfg os path = Ret tt /\ uid = 0
    /\ getgrnam_mock os = Some gid
  | EvKill _ _ => False
  | _ => True
  end.

(** The command names [main] knows, in the order it tries them, each with
    the function it calls. *)
Definition command_table (cfg : Config) (os : World)
  : list (string * (Z -> list string -> M unit)) :=
  [ ("chroot", do_chroot cfg os); ("mount", do_mount cfg os);
    ("rm", do_rm cfg os); ("umount", do_umount cfg os);
    ("rpm", do_rpm cfg os); ("mknod", do_mknod cfg os);
    ("yum", do_yum cfg os); ("unpack", do_unpack cfg os);
    ("pack", do_pack cfg os); ("chown", do_chown cfg os);
    ("chmod", do_chmod cfg os); ("orphanskill", do_orphanskill cfg os) ].

(** The computation does not come back to its caller: it ends in
    [execve], in [error] or outside defined behaviour. *)
Definition never_returns {A : Type} (m : M A) : Prop :=
  forall tr a, (m tr).1 <> Ret a.

(** The name is a string of digits, and one that is not empty. *)
Fixpoint all_digits (s : string) : bool :=
  match s with
  | EmptyString => true
  | String c rest => isdigit c && all_digits rest
  end.

Definition pid_name (s : string) : bool :=
  match s with
  | EmptyString => false
  | _ => all_digits s
  end.

(** Every byte of the string is white space. *)
Fixpoint all_space (s : string) : bool :=
  match s with
  | EmptyString => true
  | String c rest => isspace c && all_space rest
  end.

(** The vector [execve] reads from the array it is handed: the strings
    before the first null pointer.  [None] when the array holds no null
    pointer: the read then runs past the end of the array, and what the
    vector holds is not told by the array. *)
Fixpoint env_vector (envp : list (option string)) : option (list string) :=
  match envp with
  | [] => None
  | None :: _ => Some []
  | Some entry :: rest => cons entry <$> env_vector rest
  end.

(** The sample system, with the helper itself running as process 42, the
    process that is left in the chroot. *)
Definition sample_os_self : World :=
  {| beyond_rootsdir := beyond_rootsdir sample_os;
     lstat := lstat sample_os;
     chdir := chdir sample_os;
     dirname := dirname sample_os;
     getgrnam_mock := getgrnam_mock sample_os;
     environ := environ sample_os;
     is_selinux_enabled := is_selinux_enabled sample_os;
     getpid := 42;
     malloc_ok := malloc_ok sample_os;
     proc_entries := proc_entries sample_os;
     readlink_target := readlink_target sample_os;
     read_file := read_file sample_os;
     close_file := close_file sample_os;
     kill := kill sample_os |}.

(** ** Facts about the C string functions *)

Lemma uchar_inj c1 c2 : uchar c1 = uchar c2 -> c1 = c2.
Proof.
  unfold uchar. intros H. apply N2Z.inj in H.
  rewrite <- (ascii_N_embedding c1), <- (ascii_N_embedding c2). by rewrite H.
Qed.

Lemma uchar_zero c : uchar c = 0 -> c = Ascii.zero.
Proof. intros H. apply uchar_inj. by rewrite H. Qed.

Lemma append_cons c s t : String c s +:+ t = String c (s +:+ t).
Proof. reflexivity. Qed.

Lemma append_nil s : EmptyString +:+ s = s.
Proof. reflexivity. Qed.

Lemma prefix_cons c1 s1 c2 s2 :
  String.prefix (String c1 s1) (String c2 s2)
  = Ascii.eqb c1 c2 && String.prefix s1 s2.
Proof.
  change (String.prefix (String c1 s1) (String c2 s2))
    with (if ascii_dec c1 c2 then String.prefix s1 s2 else false).
  destruct (ascii_dec c1 c2) as [->|Hne].
  - by rewrite Ascii.eqb_refl.
  - by destruct (Ascii.eqb_spec c1 c2).
Qed.

Lemma prefix_cons_nil c s : String.prefix (String c s) EmptyString = false.
Proof. reflexivity. Qed.

Lemma prefix_nil s : String.prefix EmptyString s = true.
Proof. by destruct s. Qed.

Lemma strncmp_refl_app r x : strncmp (r +:+ x) r (strlen r) = 0.
Proof.
  induction r as [|c r IH]; [done|].
  rewrite append_cons. cbn. by rewrite Ascii.eqb_refl.
Qed.

Lemma strncmp_literal lit s :
  nonul lit = true ->
  (strncmp lit s (strlen lit) =? 0) = String.prefix lit s.
Proof.
  revert s. induction lit as [|c lit IH]; intros s Hn.
  - by destruct s.
  - cbn in Hn. apply andb_prop in Hn as [Hc Hn].
    destruct s as [|c' s].
    + cbn. apply Z.eqb_neq. intros H.
      assert (c = Ascii.zero) as -> by (apply uchar_zero; lia).
      by rewrite Ascii.eqb_refl in Hc.
    + rewrite prefix_cons. cbn [strlen String.length strncmp].
      destruct (Ascii.eqb_spec c c') as [->|Hne]; cbn [andb].
      * by apply IH.
      * apply Z.eqb_neq. intros H. apply Hne, uchar_inj. lia.
Qed.

Lemma prefix_app lit s :
  String.prefix lit s = true <-> exists rest, s = lit +:+ rest.
Proof.
  revert s. induction lit as [|c lit IH]; intros s.
  - destruct s; split; eauto.
  - destruct s as [|c' s]; [split; [done | by intros [? ?]]|].
    rewrite prefix_cons. destruct (Ascii.eqb_spec c c') as [->|Hne]; cbn.
    + rewrite IH. split; intros [rest ?]; exists rest;
        rewrite ?append_cons in *; congruence.
    + split; [done|]. intros [rest ?]. rewrite append_cons in *. congruence.
Qed.

Lemma strstr_unfold hay needle :
  strstr hay needle =
  if String.prefix needle hay then Some O
  else match hay with
       | EmptyString => None
       | String _ rest => S <$> strstr rest needle
       end.
Proof. by destruct hay. Qed.

Lemma prefix_dotdot_snoc s c :
  c <> "."%char ->
  String.prefix ".." (s +:+ String c EmptyString) = String.prefix ".." s.
Proof.
  intros Hc. destruct s as [|a [|b r]];
    rewrite ?append_cons, ?append_nil, ?prefix_cons, ?prefix_cons_nil, ?prefix_nil;
    try done.
  - by rewrite andb_false_r.
  - destruct (Ascii.eqb_spec "." c); [congruence|]. by rewrite !andb_false_r.
Qed.

Lemma strstr_dotdot_snoc s c :
  strstr s ".." = None -> c <> "."%char ->
  strstr (s +:+ String c EmptyString) ".." = None.
Proof.
  intros Hs Hc. induction s as [|a s IH].
  - rewrite append_nil, !strstr_unfold, prefix_cons, prefix_cons_nil.
    by rewrite andb_false_r.
  - rewrite strstr_unfold in Hs. rewrite strstr_unfold, prefix_dotdot_snoc by done.
    destruct (String.prefix ".." (String a s)); [done|].
    rewrite append_cons.
    destruct (strstr s "..") eqn:E; [done|]. by rewrite IH.
Qed.

Lemma strlen_app s t : strlen (s +:+ t) = (strlen s + strlen t)%nat.
Proof.
  induction s as [|c s IH]; [done|].
  rewrite append_cons. cbn. f_equal. exact IH.
Qed.

Lemma char_at_terminator s : char_at s (Z.of_nat (strlen s)) = Some Ascii.zero.
Proof.
  unfold char_at. destruct (decide _) as [?|_]; [lia|].
  by destruct (decide _).
Qed.

Lemma append_inv_head s t1 t2 : s +:+ t1 = s +:+ t2 -> t1 = t2.
Proof.
  induction s as [|c s IH]; [done|].
  rewrite !append_cons. intros H. apply IH. congruence.
Qed.

Lemma last_char_snoc s c : last_char (s +:+ String c EmptyString) = Some c.
Proof.
  induction s as [|a s IH]; [done|].
  rewrite append_cons. cbn [last_char]. rewrite IH.
  destruct s; [done|]. by rewrite append_cons.
Qed.

(** ** The path checks *)

(** The root followed by one more byte passes [check_allowed] unless the
    byte is a dot that completes a [..]: the separator test reads the
    terminator of [rootsdir]. *)
Lemma check_allowed_root_snoc cfg os c :
  strstr (ROOTSDIR cfg) ".." = None -> c <> "."%char ->
  check_allowed cfg os (ROOTSDIR cfg +:+ String c EmptyString) = Ret tt.
Proof.
  intros Hdots Hc. unfold check_allowed.
  rewrite strncmp_refl_app. cbn [Z.eqb negb error_if res_bind].
  rewrite strstr_dotdot_snoc by done.
  rewrite bool_decide_eq_false_2 by (intros H; by apply H).
  cbn [error_if res_bind].
  rewrite strlen_app. cbn [strlen String.length].
  replace (Z.of_nat (strlen (ROOTSDIR cfg) + 1) - 1)
    with (Z.of_nat (strlen (ROOTSDIR cfg))) by lia.
  unfold rootsdir_at. by rewrite char_at_terminator.
Qed.

(** ** The environment built by [do_command] *)

Lemma substring_all s : String.substring 0 (String.length s) s = s.
Proof. induction s as [|c s IH]; cbn; [done | by rewrite IH]. Qed.

Lemma string_at_base entry :
  string_at {| base := entry; off := 0 |} = Some entry.
Proof.
  unfold string_at. cbn [base off].
  destruct (decide _) as [_|H]; [|lia].
  cbn. unfold strlen. by rewrite Nat.sub_0_r, substring_all.
Qed.

Lemma char_at_cons c s n :
  char_at (String c s) (Z.of_nat (S n)) = char_at s (Z.of_nat n).
Proof.
  unfold char_at, strlen. cbn [String.length]. rewrite !Nat2Z.id.
  repeat (destruct (decide _)); try lia; done.
Qed.

Lemma char_at_head c s : char_at (String c s) 0 = Some c.
Proof.
  unfold char_at, strlen. cbn [String.length].
  destruct (decide _); [done | lia].
Qed.

Lemma char_at_empty : char_at EmptyString 0 = Some Ascii.zero.
Proof. reflexivity. Qed.

(** The test of [getenv] on one entry is the test for the prefix NAME=. *)
Lemma getenv_test name entry :
  nonul name = true ->
  (strncmp entry name (strlen name) =? 0)
  && bool_decide (char_at entry (Z.of_nat (strlen name)) = Some "="%char)
  = String.prefix (name +:+ "=") entry.
Proof.
  revert entry. induction name as [|c name IH]; intros entry Hn.
  - rewrite append_nil. cbn [strlen String.length strncmp Z.eqb andb].
    change (Z.of_nat 0) with 0.
    destruct entry as [|c' r].
    + by rewrite prefix_cons_nil, char_at_empty.
    + rewrite prefix_cons, prefix_nil, andb_true_r, char_at_head.
      destruct (Ascii.eqb_spec "=" c') as [<-|Hne].
      * by apply bool_decide_eq_true_2.
      * apply bool_decide_eq_false_2. congruence.
  - cbn in Hn. apply andb_prop in Hn as [Hc Hn].
    rewrite append_cons. destruct entry as [|c' r].
    + rewrite prefix_cons_nil. cbn [strlen String.length strncmp].
      apply andb_false_intro1, Z.eqb_neq. intros H.
      assert (c = Ascii.zero) as -> by (apply uchar_zero; lia).
      by rewrite Ascii.eqb_refl in Hc.
    + rewrite prefix_cons. cbn [strlen String.length strncmp].
      rewrite char_at_cons.
      destruct (Ascii.eqb_spec c' c) as [->|Hne].
      * rewrite Ascii.eqb_refl. cbn [andb]. by apply IH.
      * destruct (Ascii.eqb_spec c c'); [congruence|]. cbn [andb].
        apply andb_false_intro1, Z.eqb_neq. intros H.
        apply Hne, uchar_inj. lia.
Qed.

(** [getenv] points behind the equals sign of the caller's entry. *)
Lemma getenv_caller_entry environ name :
  nonul name = true ->
  getenv environ name
  = (fun entry => {| base := entry; off := Z.of_nat (strlen name) + 1 |})
      <$> caller_entry environ name.
Proof.
  intros Hn. unfold caller_entry.
  induction environ as [|entry rest IH]; [done|].
  cbn [getenv List.find]. rewrite getenv_test by done.
  by destruct (String.prefix (name +:+ "=") entry).
Qed.

Lemma caller_entry_Some environ name entry :
  caller_entry environ name = Some entry ->
  entry ∈ environ /\ String.prefix (name +:+ "=") entry = true.
Proof.
  unfold caller_entry. intros H. apply find_some in H as [Hin Hp].
  split; [by apply list_elem_of_In | done].
Qed.

(** One round of the loop: the entry, if there is one, goes to the first
    free slot. *)
Lemma copy_allowed_spec os filled k name :
  nonul name = true ->
  (0 < k)%nat ->
  copy_allowed os ((Some <$> filled) ++ replicate k None, length filled) name
  = match caller_entry (environ os) name with
    | None => Ret ((Some <$> filled) ++ replicate k None, length filled)
    | Some entry =>
      Ret ((Some <$> (filled ++ [entry])) ++ replicate (k - 1) None,
           length (filled ++ [entry]))
    end.
Proof.
  intros Hn Hk. unfold copy_allowed. rewrite getenv_caller_entry by done.
  destruct (caller_entry (environ os) name) as [entry|]; [|done].
  cbn [fmap option_fmap option_map]. unfold env_store, ptr_sub. cbn [base off].
  replace (Z.of_nat (strlen name) + 1 - (Z.of_nat (strlen name) + 1)) with 0 by lia.
  rewrite string_at_base.
  destruct (decide _) as [_|Hlen].
  - f_equal. f_equal.
    + destruct k as [|k]; [lia|]. cbn [replicate].
      rewrite fmap_app, <- app_assoc. cbn [fmap list_fmap app].
      replace (length filled) with (length (Some <$> filled) + 0)%nat
        by (rewrite length_fmap; lia).
      rewrite insert_app_r. cbn. by rewrite Nat.sub_0_r.
    + rewrite length_app. cbn. lia.
  - exfalso. apply Hlen. rewrite length_app, length_fmap, length_replicate. lia.
Qed.

Lemma for_each_copy_allowed os names : forall filled k,
  Forall (fun name => nonul name = true) names ->
  (length names <= k)%nat ->
  for_each (copy_allowed os) names
           ((Some <$> filled) ++ replicate k None, length filled)
  = Ret ((Some <$> (filled ++ omap (caller_entry (environ os)) names))
           ++ replicate (k - length (omap (caller_entry (environ os)) names)) None,
         length (filled ++ omap (caller_entry (environ os)) names)).
Proof.
  induction names as [|name names IH]; intros filled k Hn Hk.
  - cbn. by rewrite app_nil_r, Nat.sub_0_r.
  - apply Forall_cons in Hn as [Hname Hn]. cbn [length] in Hk.
    cbn [for_each omap list_omap]. rewrite copy_allowed_spec by (done || lia).
    destruct (caller_entry (environ os) name) as [entry|]; cbn [res_bind].
    + rewrite (IH (filled ++ [entry]) (k - 1)%nat Hn) by lia. cbn [length].
      rewrite <- !app_assoc. cbn [app].
      by rewrite <- Nat.sub_add_distr.
    + rewrite (IH filled k Hn) by lia. done.
Qed.

(** What [do_command] does, whatever the caller's environment. *)
Lemma do_command_spec cfg os filename argv preload tr :
  let filled := SanitizedEnvironment (mac_preload cfg os preload) (environ os) in
  do_command cfg os filename argv preload tr
  = (Exec filename argv (env_array filled),
     tr ++ EvSetreuid ::
       (if mac_preload cfg os preload
        then [EvPrintf "adding ld_preload of LD_PRELOAD=libselinux-mock.so"]
        else [])).
Proof.
  assert (Hnames : Forall (fun name => nonul name = true) ALLOWED_ENV)
    by (repeat constructor).
  unfold do_command, env_array, SanitizedEnvironment.
  fold (mac_preload cfg os preload).
  destruct (mac_preload cfg os preload); cbn [bind emit lift ret].
  - set (fixed := ["PATH=/bin:/usr/bin:/usr/sbin"; "HOME=/root";
                   "LD_PRELOAD=libselinux-mock.so"]).
    change (env_store _ _)
      with (@Ret env_state ((Some <$> fixed) ++ replicate 6 None, length fixed)).
    cbv beta iota.
    rewrite (for_each_copy_allowed os ALLOWED_ENV fixed 6 Hnames) by (cbn; lia).
    cbn [fst lift]. by rewrite <- !app_assoc.
  - set (fixed := ["PATH=/bin:/usr/bin:/usr/sbin"; "HOME=/root"]).
    change (for_each (copy_allowed os) ALLOWED_ENV _)
      with (for_each (copy_allowed os) ALLOWED_ENV
              ((Some <$> fixed) ++ replicate 7 None, length fixed)).
    rewrite (for_each_copy_allowed os ALLOWED_ENV fixed 7 Hnames) by (cbn; lia).
    by cbn [fst lift].
Qed.

Lemma length_omap_all {A B} (f : A -> option B) l :
  Forall (fun a => is_Some (f a)) l -> length (omap f l) = length l.
Proof.
  induction 1 as [|a l [b Hb] _ IH]; cbn; [done|]. rewrite Hb. cbn. by rewrite IH.
Qed.

(** ** The option checks of the subcommands *)

(** Only the first [strlen l] bytes of a literal count when that is the
    length handed to [strncmp]. *)
Lemma strncmp_app_l l x s :
  strncmp (l +:+ x) s (strlen l) = strncmp l s (strlen l).
Proof.
  revert s. induction l as [|c l IH]; intros s; [done|].
  rewrite append_cons. cbn [strlen String.length strncmp].
  destruct s as [|c' s]; [done|].
  destruct (Ascii.eqb c c'); [apply IH | done].
Qed.

Lemma argc_of_ge (n : nat) (argv : list string) :
  (n <= length argv)%nat -> (argc_of argv <? Z.of_nat n) = false.
Proof. intros H. apply Z.ltb_ge. unfold argc_of. lia. Qed.

Lemma arg_matches_literal lit argv i n s :
  argv !! i = Some s -> nonul lit = true -> n = strlen lit ->
  arg_matches lit argv i n = Ret (String.prefix lit s).
Proof.
  intros Hs Hn ->. unfold arg_matches, str. rewrite Hs. cbn [res_bind].
  by rewrite strncmp_literal.
Qed.

(** ** The orphan reaper *)

Lemma length_substring n s :
  String.length (String.substring 0 n s) = Nat.min n (String.length s).
Proof.
  revert s. induction n as [|n IH]; intros [|c s]; cbn; try done.
  by rewrite IH.
Qed.

Lemma substring_short n s :
  (String.length s <= n)%nat -> String.substring 0 n s = s.
Proof.
  revert s. induction n as [|n IH]; intros [|c s] H; cbn in *; try done; try lia.
  rewrite IH; [done | lia].
Qed.

Lemma memcmp_zero b1 b2 :
  memcmp b1 b2 (String.length b2) = Some 0 ->
  String.length b1 = String.length b2 -> b1 = b2.
Proof.
  revert b1. induction b2 as [|c2 b2 IH]; intros [|c1 b1]; cbn; try done.
  destruct (Ascii.eqb_spec c1 c2) as [->|Hne].
  - intros H1 H2. f_equal. apply IH; [done | lia].
  - intros H. exfalso. apply Hne, uchar_inj. injection H. lia.
Qed.

(** The two tests of the loop pass only for the path itself: a longer
    target fills the buffer, which is one byte longer than the path. *)
Lemma readlink_match os proc_root chrootdir link_buf :
  readlink os proc_root (strlen chrootdir + 1) = Some link_buf ->
  strlen link_buf = (strlen chrootdir + 1 - 1)%nat ->
  memcmp link_buf chrootdir (strlen chrootdir + 1 - 1) = Some 0 ->
  readlink_target os proc_root = Some chrootdir.
Proof.
  unfold readlink, strlen. intros Hlink Hlen Hcmp.
  destruct (readlink_target os proc_root) as [target|]; [|done].
  cbn in Hlink. injection Hlink as <-.
  rewrite length_substring in Hlen.
  rewrite substring_short in Hcmp by lia.
  f_equal. apply memcmp_zero; [|lia].
  by replace (String.length chrootdir + 1 - 1)%nat
       with (String.length chrootdir) in Hcmp by lia.
Qed.

Lemma kills_only_ret P {A} (a : A) : kills_only P (ret a).
Proof.
  intros tr. exists []. split; [by rewrite app_nil_r|].
  intros ? ? H. by apply elem_of_nil in H.
Qed.

Lemma kills_only_lift P {A} (r : res A) : kills_only P (lift r).
Proof.
  intros tr. exists []. split; [by rewrite app_nil_r|].
  intros ? ? H. by apply elem_of_nil in H.
Qed.

Lemma kills_only_emit P e :
  (forall pid sig, e = EvKill pid sig -> P pid /\ sig = SIGKILL) ->
  kills_only P (emit e).
Proof.
  intros He tr. exists [e]. split; [done|].
  intros pid sig H. apply list_elem_of_singleton in H. by apply He.
Qed.

Lemma kills_only_bind P {A B} (m : M A) (k : A -> M B) :
  kills_only P m -> (forall a, kills_only P (k a)) -> kills_only P (bind m k).
Proof.
  intros Hm Hk tr. unfold bind.
  destruct (Hm tr) as (evs & Htr & Hevs).
  destruct (m tr) as [[a| | |] tr'] eqn:E; cbn [snd] in Htr; subst tr';
    try (exists evs; by split).
  destruct (Hk a (tr ++ evs)) as (evs' & Htr' & Hevs').
  exists (evs ++ evs'). rewrite Htr', app_assoc. split; [done|].
  intros pid sig H. apply elem_of_app in H as [H|H]; eauto.
Qed.

Lemma kills_only_weaken (P Q : Z -> Prop) {A} (m : M A) :
  (forall pid, P pid -> Q pid) -> kills_only P m -> kills_only Q m.
Proof.
  intros HPQ Hm tr. destruct (Hm tr) as (evs & Htr & Hevs).
  exists evs. split; [done|]. intros pid sig H.
  destruct (Hevs pid sig H). auto.
Qed.

Lemma read_cmdline_kills_none os P pid : kills_only P (read_cmdline os pid).
Proof.
  unfold read_cmdline.
  destruct (read_file os _) as [[cmdline|]|];
    repeat (apply kills_only_bind; [|intros ?]);
    try apply kills_only_ret; try (by apply kills_only_emit);
    destruct (close_file os _ =? 0);
    try apply kills_only_ret; by apply kills_only_emit.
Qed.

(** [orphanskill_pid] signals the process it is given, and only when it
    is not the helper itself. *)
Lemma orphanskill_pid_kills os pid :
  kills_only (fun p => p = pid /\ pid <> getpid os) (orphanskill_pid os pid).
Proof.
  unfold orphanskill_pid.
  destruct (Z.eqb_spec pid (getpid os)) as [Heq|Hne].
  - intros tr. exists []. cbn. split; [by rewrite app_nil_r|].
    intros ? ? H. by apply elem_of_nil in H.
  - apply kills_only_bind; [apply kills_only_lift | intros _].
    apply kills_only_bind; [apply read_cmdline_kills_none | intros got].
    apply kills_only_bind; [by apply kills_only_emit | intros _].
    apply kills_only_bind.
    + apply kills_only_emit. intros ? ? [= <- <-]. done.
    + intros _. destruct (kill os pid =? 0);
        [apply kills_only_ret | by apply kills_only_emit].
Qed.

Lemma orphanskill_entry_kills os chrootdir ent :
  kills_only
    (fun pid =>
       readlink_target os ("/proc/" +:+ fmt_d pid +:+ "/root") = Some chrootdir
       /\ pid <> getpid os)
    (orphanskill_entry os chrootdir (strlen chrootdir + 1) ent).
Proof.
  unfold orphanskill_entry.
  destruct (negb _); [apply kills_only_ret|].
  destruct (_ || _); [apply kills_only_ret|].
  destruct (atoi (d_name ent)) as [pid|]; [|apply kills_only_lift].
  destruct (_ || _); [by apply kills_only_emit|].
  destruct (readlink os _ _) as [link_buf|] eqn:Hlink; [|apply kills_only_ret].
  destruct (Nat.eqb_spec (strlen link_buf) (strlen chrootdir + 1 - 1)) as [Hlen|];
    cbn [negb]; [|apply kills_only_ret].
  destruct (memcmp link_buf chrootdir _) as [d|] eqn:Hcmp; [|apply kills_only_lift].
  destruct (Z.eqb_spec d 0) as [->|]; cbn [negb]; [|apply kills_only_ret].
  eapply kills_only_weaken; [|apply orphanskill_pid_kills].
  intros p [-> Hself]. split; [|done].
  by eapply readlink_match.
Qed.

Lemma orphanskill_scan_kills os chrootdir ents :
  kills_only
    (fun pid =>
       readlink_target os ("/proc/" +:+ fmt_d pid +:+ "/root") = Some chrootdir
       /\ pid <> getpid os)
    (orphanskill_scan os chrootdir (strlen chrootdir + 1) ents).
Proof.
  induction ents as [|ent ents IH]; cbn [orphanskill_scan].
  - apply kills_only_ret.
  - apply kills_only_bind; [apply orphanskill_entry_kills | by intros _].
Qed.

(** ** The claims about [check_allowed] *)

(** C1: a path whose last character is a path separator is NOT always
    refused.  The separator test of [check_allowed] indexes [rootsdir]
    where it means [given]; for the root followed by a separator it reads
    the terminator of [rootsdir], and the path, which ends with the
    separator, passes all three checks. *)
Theorem check_allowed_misses_trailing_separator (cfg : Config) (os : World) :
  strstr (ROOTSDIR cfg) ".." = None ->
  last_char (ROOTSDIR cfg +:+ "/") = Some "/"%char
  /\ check_allowed cfg os (ROOTSDIR cfg +:+ "/") = Ret tt.
Proof.
  intros Hdots. split.
  - apply last_char_snoc.
  - by apply check_allowed_root_snoc.
Qed.

Lemma check_allowed_misses_trailing_separator_witness :
  strstr "/var/lib/mock" ".." = None
  /\ last_char "/var/lib/mock/" = Some "/"%char
  /\ check_allowed sample_cfg sample_os "/var/lib/mock/" = Ret tt.
Proof.
  split; [reflexivity|].
  exact (check_allowed_misses_trailing_separator sample_cfg sample_os eq_refl).
Defined.

(** C10: containment is a comparison of bytes with no separator after the
    prefix.  When the root has no [..] and does not itself end with a
    separator, the root followed by any one byte other than a separator
    or a dot passes [check_allowed], and names no entry of the tree below
    the root. *)
Theorem check_allowed_accepts_sibling (cfg : Config) (os : World) (c : ascii) :
  strstr (ROOTSDIR cfg) ".." = None ->
  last_char (ROOTSDIR cfg) <> Some "/"%char ->
  c <> "/"%char -> c <> "."%char ->
  check_allowed cfg os (ROOTSDIR cfg +:+ String c EmptyString) = Ret tt
  /\ ~ in_subtree (ROOTSDIR cfg) (ROOTSDIR cfg +:+ String c EmptyString).
Proof.
  intros Hdots Hlast Hsep Hdot. split.
  - by apply check_allowed_root_snoc.
  - intros (rest & Heq & Hrest). apply append_inv_head in Heq. subst rest.
    destruct Hrest as [H | [H | H]]; [done | | done].
    rewrite prefix_cons in H. destruct (Ascii.eqb_spec "/" c); [congruence | done].
Qed.

Lemma check_allowed_accepts_sibling_witness :
  check_allowed sample_cfg sample_os "/var/lib/mock2" = Ret tt
  /\ ~ in_subtree "/var/lib/mock" "/var/lib/mock2".
Proof.
  apply (check_allowed_accepts_sibling sample_cfg sample_os "2"); [reflexivity | | |];
    intros H; discriminate H.
Defined.

(** ** The claims about the privileged executor *)

(** The array [do_command] builds holds the sanitized environment of the
    specification, followed by the null pointers that are left: the fixed
    PATH and HOME, the preload entry when MAC is enabled and the operation
    opted in, and the caller's entry for each allow-listed name that is
    set.  Every entry is one of the three fixed strings or an entry of the
    caller that sets an allow-listed name. *)
Theorem do_command_environment (cfg : Config) (os : World)
    (filename : string) (argv : list string) (preload : Z) :
  let filled := SanitizedEnvironment (mac_preload cfg os preload) (environ os) in
  outcome (do_command cfg os filename argv preload)
  = Exec filename argv (env_array filled)
  /\ Forall (fun entry =>
       entry = "PATH=/bin:/usr/bin:/usr/sbin"
       \/ entry = "HOME=/root"
       \/ (mac_preload cfg os preload = true
           /\ entry = "LD_PRELOAD=libselinux-mock.so")
       \/ exists name, name ∈ ALLOWED_ENV /\ entry ∈ environ os
                       /\ String.prefix (name +:+ "=") entry = true) filled.
Proof.
  intros filled. split.
  - unfold outcome. by rewrite do_command_spec.
  - subst filled. unfold SanitizedEnvironment.
    apply Forall_forall. intros entry Hin.
    rewrite !elem_of_app in Hin. destruct Hin as [Hin | [Hin | Hin]].
    + apply elem_of_cons in Hin as [-> | Hin]; [by left|].
      apply list_elem_of_singleton in Hin as ->. by right; left.
    + destruct (mac_preload cfg os preload); [|by apply elem_of_nil in Hin].
      apply list_elem_of_singleton in Hin as ->. by right; right; left.
    + apply list_elem_of_omap in Hin as (name & Hname & Hentry).
      apply caller_entry_Some in Hentry as [? ?]. eauto 10.
Qed.

Lemma do_command_environment_witness :
  outcome (do_command sample_cfg sample_os "/bin/rm"
             ["rm"; "-rf"; "/var/lib/mock/fedora"] 0)
  = Exec "/bin/rm" ["rm"; "-rf"; "/var/lib/mock/fedora"]
      [ Some "PATH=/bin:/usr/bin:/usr/sbin"; Some "HOME=/root";
        Some "dist=.fc5"; Some "ftp_proxy=http://proxy:3128";
        Some "http_proxy=http://proxy:3128";
        Some "https_proxy=http://proxy:3128"; Some "no_proxy=localhost";
        Some "PS1=$ "; None ].
Proof.
  exact (proj1 (do_command_environment sample_cfg sample_os "/bin/rm"
                  ["rm"; "-rf"; "/var/lib/mock/fedora"] 0)).
Defined.

(** C9: the array is NOT always left with a null entry.  It has
    [3 + ALLOWED_ENV_SIZE] slots; with the preload entry and all six
    allow-listed variables set, [do_command] fills every one of them and
    [execve] is handed an array without a terminator. *)
Theorem do_command_env_unterminated (cfg : Config) (os : World)
    (filename : string) (argv : list string) (preload : Z) :
  mac_preload cfg os preload = true ->
  Forall (fun name => is_Some (getenv (environ os) name)) ALLOWED_ENV ->
  exists envp,
    outcome (do_command cfg os filename argv preload) = Exec filename argv envp
    /\ length envp = (3 + ALLOWED_ENV_SIZE)%nat
    /\ None ∉ envp.
Proof.
  intros Hmac Hset.
  assert (Hall : Forall (fun name => is_Some (caller_entry (environ os) name))
                        ALLOWED_ENV).
  { apply Forall_forall. intros name Hin.
    assert (nonul name = true) as Hn.
    { revert name Hin. apply Forall_forall. repeat constructor. }
    rewrite Forall_forall in Hset. destruct (Hset name Hin) as [p Hp].
    rewrite getenv_caller_entry in Hp by done.
    destruct (caller_entry (environ os) name); [eauto | done]. }
  apply length_omap_all in Hall.
  exists (env_array (SanitizedEnvironment true (environ os))). split; [|split].
  - unfold outcome. by rewrite do_command_spec, Hmac.
  - unfold env_array, SanitizedEnvironment.
    rewrite !length_app, length_fmap, length_replicate, !length_app, Hall.
    reflexivity.
  - unfold env_array, SanitizedEnvironment.
    rewrite !length_app, Hall. cbn [length Nat.add Nat.sub ALLOWED_ENV_SIZE ALLOWED_ENV replicate].
    rewrite app_nil_r. intros Hin. apply list_elem_of_fmap in Hin as (? & ? & ?). done.
Qed.

Lemma do_command_env_unterminated_witness :
  exists envp,
    outcome (do_command sample_cfg sample_os "/usr/libexec/mock-yum"
               ["yum"; "--installroot"; "/var/lib/mock/fedora"] 1)
    = Exec "/usr/libexec/mock-yum"
        ["yum"; "--installroot"; "/var/lib/mock/fedora"] envp
    /\ length envp = 9%nat
    /\ None ∉ envp.
Proof.
  apply (do_command_env_unterminated sample_cfg sample_os).
  - reflexivity.
  - repeat constructor; eexists; reflexivity.
Defined.

(** ** The claims about the subcommands *)

(** C3: once [rm] has its four leading arguments right, the helper hands
    the whole request from position 1 on to [/bin/rm]; the arguments at
    positions 4 and beyond are not looked at, whatever they are. *)
Theorem do_rm_passes_tail_unchecked (cfg : Config) (os : World)
    (a0 a1 a3 : string) (extra : list string) :
  check_dir_allowed cfg os a3 = Ret tt ->
  outcome (do_rm cfg os (argc_of (a0 :: a1 :: "-rf" :: a3 :: extra))
                 (a0 :: a1 :: "-rf" :: a3 :: extra))
  = Exec "/bin/rm" (a1 :: "-rf" :: a3 :: extra)
         (env_array (SanitizedEnvironment false (environ os))).
Proof.
  intros Hdir. unfold outcome, do_rm, bind, lift.
  rewrite (argc_of_ge 4) by (cbn; lia). cbn [error_if].
  unfold arg_matches, str. cbn [lookup list_lookup res_bind].
  change (strncmp "-rf" "-rf" 4 =? 0) with true.
  cbn [negb error_if]. rewrite Hdir. cbn [drop].
  rewrite do_command_spec. cbn [fst].
  replace (mac_preload cfg os 0) with false; [done|].
  unfold mac_preload. cbn. by rewrite !andb_false_r.
Qed.

Lemma do_rm_passes_tail_unchecked_witness :
  check_dir_allowed sample_cfg sample_os "/var/lib/mock/fedora" = Ret tt
  /\ outcome (do_rm sample_cfg sample_os 6
                ["mock-helper"; "rm"; "-rf"; "/var/lib/mock/fedora";
                 "/etc"; "/home"])
     = Exec "/bin/rm" ["rm"; "-rf"; "/var/lib/mock/fedora"; "/etc"; "/home"]
         [ Some "PATH=/bin:/usr/bin:/usr/sbin"; Some "HOME=/root";
           Some "dist=.fc5"; Some "ftp_proxy=http://proxy:3128";
           Some "http_proxy=http://proxy:3128";
           Some "https_proxy=http://proxy:3128"; Some "no_proxy=localhost";
           Some "PS1=$ "; None ].
Proof.
  split; [reflexivity|].
  exact (do_rm_passes_tail_unchecked sample_cfg sample_os "mock-helper" "rm"
           "/var/lib/mock/fedora" ["/etc"; "/home"] eq_refl).
Defined.

(** C5: [yum] does NOT insist on [--installroot].  The comparison runs
    over 6 bytes, the length of the [--root] of [do_rpm], so every token
    that begins with [--inst] passes the option check and, with a valid
    directory behind it, reaches the package manager. *)
Theorem do_yum_accepts_truncated_option (cfg : Config) (os : World)
    (a0 a1 a2 a3 : string) (rest : list string) :
  String.prefix "--inst" a2 = true ->
  check_dir_allowed cfg os a3 = Ret tt ->
  outcome (do_yum cfg os (argc_of (a0 :: a1 :: a2 :: a3 :: rest))
                  (a0 :: a1 :: a2 :: a3 :: rest))
  = Exec "/usr/libexec/mock-yum" (a1 :: a2 :: a3 :: rest)
         (env_array (SanitizedEnvironment (mac_preload cfg os 1) (environ os))).
Proof.
  intros Hopt Hdir. unfold outcome, do_yum, bind, lift.
  rewrite (argc_of_ge 4) by (cbn; lia). cbn [error_if].
  unfold arg_matches, str. cbn [lookup list_lookup res_bind].
  change (strncmp "--installroot" a2 6)
    with (strncmp ("--inst" +:+ "allroot") a2 (strlen "--inst")).
  rewrite strncmp_app_l, strncmp_literal, Hopt by done.
  cbn [negb error_if]. rewrite Hdir. cbn [drop].
  by rewrite do_command_spec.
Qed.

Lemma do_yum_accepts_truncated_option_witness :
  String.prefix "--inst" "--inst" = true
  /\ check_dir_allowed sample_cfg sample_os "/var/lib/mock/fedora" = Ret tt
  /\ exists envp,
       outcome (do_yum sample_cfg sample_os 5
                  ["mock-helper"; "yum"; "--inst"; "/var/lib/mock/fedora";
                   "install"])
       = Exec "/usr/libexec/mock-yum"
           ["yum"; "--inst"; "/var/lib/mock/fedora"; "install"] envp.
Proof.
  split; [reflexivity|]. split; [reflexivity|]. eexists.
  exact (do_yum_accepts_truncated_option sample_cfg sample_os "mock-helper"
           "yum" "--inst" "/var/lib/mock/fedora" ["install"] eq_refl eq_refl).
Defined.

(** The checks of [do_mount] on a request of at least five arguments, by
    the option pair. *)
Lemma do_mount_checks cfg os a0 a1 a2 a3 a4 rest :
  let argv := a0 :: a1 :: a2 :: a3 :: a4 :: rest in
  let dest (d : option string) : res unit * list event :=
    match d with
    | None => (Undef, [])
    | Some d =>
      if strncmp (ROOTSDIR cfg) d (strlen (ROOTSDIR cfg)) =? 0
      then do_command cfg os "/bin/mount" (drop 1 argv) 0 []
      else (Fatal MountNotAllowed, [])
    end in
  do_mount cfg os (argc_of argv) argv []
  = if String.prefix "-t" a2 && String.prefix "proc" a3 then dest (rest !! 0%nat)
    else if String.prefix "-t" a2 && String.prefix "devpts" a3
         then dest (rest !! 0%nat)
    else if String.prefix "--bind" a2 && String.prefix "/dev" a3
         then dest (Some a4)
    else (Fatal UnallowedMountType, []).
Proof.
  intros argv dest. unfold do_mount, bind, lift, and_then.
  rewrite !(argc_of_ge 5) by (cbn; lia). cbn [error_if].
  rewrite (arg_matches_literal "-t" argv 2 2 a2),
          (arg_matches_literal "proc" argv 3 4 a3),
          (arg_matches_literal "devpts" argv 3 6 a3),
          (arg_matches_literal "--bind" argv 2 6 a2),
          (arg_matches_literal "/dev" argv 3 4 a3) by done.
  unfold arg_matches, str. subst argv. cbn [lookup list_lookup res_bind].
  destruct (String.prefix "-t" a2), (String.prefix "proc" a3),
    (String.prefix "devpts" a3), (String.prefix "--bind" a2),
    (String.prefix "/dev" a3);
    cbn [andb res_bind]; try reflexivity;
    try (destruct rest as [|d rest]; cbn [lookup list_lookup res_bind dest];
         [reflexivity|]);
    unfold dest;
    match goal with
    | |- context [strncmp ?r ?d ?n =? 0] => destruct (strncmp r d n =? 0)
    end; reflexivity.
Qed.

(** The type check of [do_mount] as the code has it: on a mount request
    of at least five arguments the option pair is compared by prefix.  The
    request is
    refused as an unallowed mount type exactly when the tokens at
    positions 2 and 3 do not begin with [-t] and [proc], with [-t] and
    [devpts], or with [--bind] and [/dev]; and the request reaches
    [/bin/mount] only when they do. *)
Theorem do_mount_type_by_prefix (cfg : Config) (os : World)
    (a0 a1 a2 a3 a4 : string) (rest : list string) :
  let argv := a0 :: a1 :: a2 :: a3 :: a4 :: rest in
  (outcome (do_mount cfg os (argc_of argv) argv) = Fatal UnallowedMountType
   <-> mount_type_allowed a2 a3 = false)
  /\ (forall filename args envp,
        outcome (do_mount cfg os (argc_of argv) argv) = Exec filename args envp ->
        mount_type_allowed a2 a3 = true).
Proof.
  intros argv. unfold outcome. subst argv. rewrite do_mount_checks.
  unfold mount_type_allowed.
  assert (Hdest : forall d : option string,
    (match d with
     | None => (Undef, [])
     | Some d =>
       if strncmp (ROOTSDIR cfg) d (strlen (ROOTSDIR cfg)) =? 0
       then do_command cfg os "/bin/mount"
              (drop 1 (a0 :: a1 :: a2 :: a3 :: a4 :: rest)) 0 []
       else (Fatal MountNotAllowed, [])
     end).1 <> Fatal UnallowedMountType).
  { intros [d|]; [|done].
    destruct (_ =? 0); [|done]. by rewrite do_command_spec. }
  destruct (String.prefix "-t" a2 && String.prefix "proc" a3) eqn:E1;
    [|destruct (String.prefix "-t" a2 && String.prefix "devpts" a3) eqn:E2;
      [|destruct (String.prefix "--bind" a2 && String.prefix "/dev" a3) eqn:E3]];
    cbn [orb]; (split; [split|]); try done;
    intros H; exfalso;
    first [ by eapply Hdest | by eapply (Hdest (Some a4)) ].
Qed.

Lemma do_mount_type_by_prefix_witness :
  (outcome (do_mount sample_cfg sample_os 6
              ["mock-helper"; "mount"; "-o"; "bind"; "/";
               "/var/lib/mock/fedora/mnt"])
   = Fatal UnallowedMountType
   <-> mount_type_allowed "-o" "bind" = false)
  /\ (forall filename args envp,
        outcome (do_mount sample_cfg sample_os 6
                   ["mock-helper"; "mount"; "-o"; "bind"; "/";
                    "/var/lib/mock/fedora/mnt"])
        = Exec filename args envp ->
        mount_type_allowed "-o" "bind" = true).
Proof.
  exact (do_mount_type_by_prefix sample_cfg sample_os "mock-helper" "mount"
           "-o" "bind" "/" ["/var/lib/mock/fedora/mnt"]).
Defined.

(** [-tmpfs procfs] is none of the three pairs, and the request is not
    refused but reaches [/bin/mount]. *)
Lemma do_mount_accepts_longer_tokens :
  let argv := ["mock-helper"; "mount"; "-tmpfs"; "procfs"; "none";
               "/var/lib/mock/fedora/proc"] in
  (("-tmpfs", "procfs")
     ∉ [("-t", "proc"); ("-t", "devpts"); ("--bind", "/dev")])
  /\ (5 <= length argv)%nat
  /\ outcome (do_mount sample_cfg sample_os (argc_of argv) argv)
     <> Fatal UnallowedMountType
  /\ exists envp,
       outcome (do_mount sample_cfg sample_os (argc_of argv) argv)
       = Exec "/bin/mount"
           ["mount"; "-tmpfs"; "procfs"; "none"; "/var/lib/mock/fedora/proc"]
           envp.
Proof.
  cbn zeta. split; [|split; [|split]].
  - intros H. repeat (apply elem_of_cons in H as [H|H]; [discriminate H|]).
    by apply elem_of_nil in H.
  - cbn. lia.
  - vm_compute. discriminate.
  - eexists. vm_compute. reflexivity.
Qed.

(** C8: the read of the destination at position 5 is NOT covered by the
    argument count.  A request of exactly five arguments passes the count
    check; on the [-t proc] and [-t devpts] branches the vector has no
    element 5 (the slot holds the null pointer), and the helper hands it
    to [strncmp]. *)
Theorem do_mount_reads_missing_destination (cfg : Config) (os : World)
    (a0 a1 a2 a3 a4 : string) :
  String.prefix "-t" a2 = true ->
  String.prefix "proc" a3 = true \/ String.prefix "devpts" a3 = true ->
  let argv := [a0; a1; a2; a3; a4] in
  (argc_of argv <? 5) = false
  /\ argv !! 5%nat = None
  /\ outcome (do_mount cfg os (argc_of argv) argv) = Undef.
Proof.
  intros Ht Hfs argv. split; [done|]. split; [done|].
  unfold outcome. subst argv. rewrite do_mount_checks, Ht.
  destruct Hfs as [-> | ->]; cbn [andb]; [done|].
  by destruct (String.prefix "proc" a3).
Qed.

Lemma do_mount_reads_missing_destination_witness :
  (argc_of ["mock-helper"; "mount"; "-t"; "proc"; "proc"] <? 5) = false
  /\ ["mock-helper"; "mount"; "-t"; "proc"; "proc"] !! 5%nat = None
  /\ outcome (do_mount sample_cfg sample_os 5
                ["mock-helper"; "mount"; "-t"; "proc"; "proc"]) = Undef.
Proof.
  exact (do_mount_reads_missing_destination sample_cfg sample_os
           "mock-helper" "mount" "-t" "proc" "proc" eq_refl
           (or_introl eq_refl)).
Defined.

(** C7: [pack] does NOT go on to the archiver when the parent directory
    of the archive is missing.  The parent is checked with
    [check_dir_allowed], which asks [lstat] for a directory, before
    [mkdir] is reached: with the request and the working directory
    accepted and the parent contained but absent, the helper stops with
    the lookup error, and the only call made is [chdir]. *)
Theorem do_pack_refuses_missing_parent (cfg : Config) (os : World)
    (a0 a1 a2 a3 a4 : string) (rest : list string) :
  check_dir_allowed cfg os a2 = Ret tt ->
  chdir os a2 = 0 ->
  check_allowed cfg os (dirname os a3) = Ret tt ->
  lstat os (dirname os a3) = None ->
  let argv := a0 :: a1 :: a2 :: a3 :: a4 :: rest in
  outcome (do_pack cfg os (argc_of argv) argv) = Fatal LookupFailed
  /\ effects (do_pack cfg os (argc_of argv) argv) = [EvChdir a2].
Proof.
  intros Hdir Hcd Hparent Hstat argv.
  unfold outcome, effects, do_pack, bind, lift, emit.
  rewrite (argc_of_ge 5) by (cbn; lia). subst argv.
  cbn [error_if str lookup list_lookup].
  rewrite Hdir, Hcd. cbn [Z.eqb negb error_if].
  unfold check_dir_allowed. rewrite Hparent, Hstat. by cbn.
Qed.

Lemma do_pack_refuses_missing_parent_witness :
  let argv := ["mock-helper"; "pack"; "/var/lib/mock/fedora";
               "/var/lib/mock/cache/root.tar.gz"; "."] in
  dirname sample_os "/var/lib/mock/cache/root.tar.gz" = "/var/lib/mock/cache"
  /\ outcome (do_pack sample_cfg sample_os (argc_of argv) argv)
     = Fatal LookupFailed
  /\ effects (do_pack sample_cfg sample_os (argc_of argv) argv)
     = [EvChdir "/var/lib/mock/fedora"].
Proof.
  split; [reflexivity|].
  exact (do_pack_refuses_missing_parent sample_cfg sample_os "mock-helper"
           "pack" "/var/lib/mock/fedora" "/var/lib/mock/cache/root.tar.gz"
           "." [] eq_refl eq_refl eq_refl eq_refl).
Defined.

(** Every [kill] of a run of [do_orphanskill] is a [SIGKILL] to a process
    whose root link has the given chroot path as its target, byte for
    byte and in full, and that is not the helper itself. *)
Lemma do_orphanskill_signals_sound (cfg : Config) (os : World)
    (argc : Z) (argv : list string) (pid sig : Z) :
  EvKill pid sig ∈ effects (do_orphanskill cfg os argc argv) ->
  (exists chrootdir,
      argv !! 2%nat = Some chrootdir
      /\ readlink_target os ("/proc/" +:+ fmt_d pid +:+ "/root")
         = Some chrootdir)
  /\ pid <> getpid os
  /\ sig = SIGKILL.
Proof.
  unfold effects, do_orphanskill, bind, lift, str.
  destruct (argc <? 3); cbn [error_if];
    [intros H; by apply elem_of_nil in H|].
  destruct (argv !! 2%nat) as [chrootdir|];
    [|intros H; by apply elem_of_nil in H].
  destruct (check_dir_allowed cfg os chrootdir) as [[]| | |];
    try (intros H; by apply elem_of_nil in H).
  destruct (malloc_ok os); cbn [negb error_if];
    [|intros H; by apply elem_of_nil in H].
  destruct (proc_entries os) as [ents|];
    [|intros H; by apply elem_of_nil in H].
  destruct (orphanskill_scan_kills os chrootdir ents []) as (evs & -> & Hevs).
  cbn [app]. intros Hkill. destruct (Hevs pid sig Hkill) as [[Hlink Hne] ->].
  eauto 10.
Qed.

(** ** More facts about the C string functions *)

Lemma strncmp_zero_sym a b n : (strncmp a b n =? 0) = (strncmp b a n =? 0).
Proof.
  revert a b. induction n as [|n IH]; intros a b; [done|].
  destruct a as [|ca a], b as [|cb b]; cbn [strncmp]; try done.
  - destruct (Z.eqb_spec (0 - uchar cb) 0), (Z.eqb_spec (uchar cb - 0) 0);
      try done; lia.
  - destruct (Z.eqb_spec (uchar ca - 0) 0), (Z.eqb_spec (0 - uchar ca) 0);
      try done; lia.
  - rewrite (Ascii.eqb_sym cb ca). destruct (Ascii.eqb ca cb); [apply IH|].
    destruct (Z.eqb_spec (uchar ca - uchar cb) 0),
             (Z.eqb_spec (uchar cb - uchar ca) 0); try done; lia.
Qed.

(** The first test of [check_allowed] is the test for the prefix. *)
Lemma under_root_prefix root given :
  nonul root = true ->
  (strncmp given root (strlen root) =? 0) = String.prefix root given.
Proof. intros Hn. by rewrite strncmp_zero_sym, strncmp_literal. Qed.


(** [strstr] finds a needle exactly when it occurs. *)
Lemma strstr_contains hay needle :
  strstr hay needle <> None <-> contains needle hay.
Proof.
  split.
  - induction hay as [|c hay IH]; rewrite strstr_unfold.
    + destruct (String.prefix needle EmptyString) eqn:E; [|done].
      intros _. apply prefix_app in E as [rest ->].
      by exists EmptyString, rest.
    + destruct (String.prefix needle (String c hay)) eqn:E.
      * intros _. apply prefix_app in E as [rest ->].
        by exists EmptyString, rest.
      * destruct (strstr hay needle) as [k|] eqn:Ek; [|done].
        intros _. destruct IH as (pre & post & ->); [done|].
        by exists (String c pre), post.
  - intros (pre & post & ->). induction pre as [|c pre IH].
    + rewrite append_nil, strstr_unfold.
      replace (String.prefix needle (needle +:+ post)) with true; [done|].
      symmetry. apply prefix_app. by exists post.
    + rewrite append_cons, strstr_unfold.
      destruct (String.prefix needle _); [done|].
      by destruct (strstr (pre +:+ needle +:+ post) needle).
Qed.

Lemma strstr_test hay needle :
  bool_decide (strstr hay needle <> None) = true <-> contains needle hay.
Proof. by rewrite bool_decide_eq_true, strstr_contains. Qed.

Lemma strlen_prefix root given :
  String.prefix root given = true -> (strlen root <= strlen given)%nat.
Proof.
  intros H. apply prefix_app in H as [rest ->]. rewrite strlen_app. lia.
Qed.

Lemma prefix_same_length root given :
  String.prefix root given = true -> strlen given = strlen root -> given = root.
Proof.
  intros H Hlen. apply prefix_app in H as [rest ->].
  rewrite strlen_app in Hlen. destruct rest; [|cbn in Hlen; lia].
  clear Hlen. induction root as [|c root IH]; [done|].
  by rewrite append_cons, IH.
Qed.

Lemma char_at_last s :
  s <> EmptyString -> char_at s (Z.of_nat (strlen s) - 1) = last_char s.
Proof.
  induction s as [|c s IH]; [done|]. intros _.
  destruct s as [|c' s].
  - reflexivity.
  - change (last_char (String c (String c' s))) with (last_char (String c' s)).
    rewrite <- IH by done.
    change (strlen (String c (String c' s))) with (S (strlen (String c' s))).
    replace (Z.of_nat (S (strlen (String c' s))) - 1)
      with (Z.of_nat (S (strlen (String c' s) - 1)))
      by (cbn [strlen String.length]; lia).
    rewrite char_at_cons. f_equal. cbn [strlen String.length]. lia.
Qed.

Lemma last_char_cons c s : is_Some (last_char (String c s)).
Proof.
  revert c. induction s as [|c' s IH]; intros c; [by eexists|].
  change (last_char (String c (String c' s))) with (last_char (String c' s)).
  apply IH.
Qed.

Lemma last_char_cons_nonempty s :
  s <> EmptyString -> exists last, last_char s = Some last.
Proof. destruct s as [|c s]; [done|]. intros _. apply last_char_cons. Qed.

Lemma strncmp_literal_n lit s n :
  nonul lit = true -> n = strlen lit ->
  (strncmp lit s n =? 0) = String.prefix lit s.
Proof. intros Hn ->. by apply strncmp_literal. Qed.


(** ** The decimal form of a process id *)

Lemma length_string_of_uint d :
  String.length (NilEmpty.string_of_uint d) = Decimal.nb_digits d.
Proof. induction d; cbn; congruence. Qed.

Lemma of_uint_acc_lower d : forall acc,
  Z.pos acc * 10 ^ Z.of_nat (Decimal.nb_digits d)
  <= Z.pos (Pos.of_uint_acc d acc).
Proof.
  induction d; intros acc; cbn [Decimal.nb_digits Pos.of_uint_acc];
    [rewrite Z.pow_0_r; lia | ..];
    rewrite Nat2Z.inj_succ, Z.pow_succ_r by lia;
    (etransitivity; [|apply IHd]);
    assert (0 <= 10 ^ Z.of_nat (Decimal.nb_digits d)) by (apply Z.pow_nonneg; lia);
    nia.
Qed.

Lemma nb_digits_to_uint p n :
  Z.pos p < 10 ^ Z.of_nat n -> (Decimal.nb_digits (Pos.to_uint p) <= n)%nat.
Proof.
  intros Hp.
  pose proof (DecimalPos.Unsigned.of_to p) as Hof.
  pose proof (DecimalPos.Unsigned.to_of (Pos.to_uint p)) as Hnorm.
  rewrite Hof in Hnorm. cbn [N.to_uint] in Hnorm.
  pose proof (DecimalPos.Unsigned.to_uint_nonzero p) as Hnz.
  unfold Decimal.unorm in Hnorm.
  pose proof (DecimalFacts.nzhead_nonzero (Pos.to_uint p)) as Hhead.
  destruct (Decimal.nzhead (Pos.to_uint p)) as [|u|u|u|u|u|u|u|u|u|u] eqn:E;
    [by rewrite Hnorm in Hnz | by exfalso; eapply Hhead | ..];
    rewrite Hnorm in Hof |- *; cbn [Pos.of_uint Decimal.nb_digits] in *;
    injection Hof as Hof;
    match type of Hof with
    | Pos.of_uint_acc _ ?k = _ => pose proof (of_uint_acc_lower u k) as Hlow
    end;
    rewrite Hof in Hlow;
    assert (10 ^ Z.of_nat (Decimal.nb_digits u) < 10 ^ Z.of_nat n)
      as Hlt%Z.pow_lt_mono_r_iff by
      (assert (0 < 10 ^ Z.of_nat (Decimal.nb_digits u))
         by (apply Z.pow_pos_nonneg; lia); nia);
    lia.
Qed.

(** An [int] that is not negative prints with at most ten digits. *)
Lemma strlen_fmt_d pid :
  0 <= pid <= INT_MAX -> (strlen (fmt_d pid) <= 10)%nat.
Proof.
  intros [Hlo Hhi]. unfold fmt_d, strlen. destruct pid as [|p|p]; [cbn; lia | | lia].
  cbn [Z.to_int NilZero.string_of_int]. unfold NilZero.string_of_uint.
  pose proof (DecimalPos.Unsigned.to_uint_nonnil p) as Hnn.
  pose proof (nb_digits_to_uint p 10) as Hd.
  destruct (Pos.to_uint p) eqn:E; [done | ..];
    rewrite length_string_of_uint; apply Hd; unfold INT_MAX in Hhi;
    change (10 ^ Z.of_nat 10) with 10000000000; lia.
Qed.

(** ** Further properties of the path checks *)

(** X1: whatever [check_allowed] lets through begins with the bytes of
    the root and has no [..] anywhere in it. *)
Theorem check_allowed_accepts_only_contained (cfg : Config) (os : World)
    (given : string) :
  nonul (ROOTSDIR cfg) = true ->
  check_allowed cfg os given = Ret tt ->
  (exists rest, given = ROOTSDIR cfg +:+ rest) /\ ~ contains ".." given.
Proof.
  intros Hn. unfold check_allowed. rewrite under_root_prefix by done.
  destruct (String.prefix (ROOTSDIR cfg) given) eqn:Hp; [|done].
  cbn [negb error_if res_bind].
  destruct (bool_decide (strstr given ".." <> None)) eqn:Hd; [done|].
  intros _. split; [by apply prefix_app|].
  intros Hc. apply strstr_test in Hc. congruence.
Qed.

Lemma check_allowed_accepts_only_contained_witness :
  (exists rest, "/var/lib/mock/fedora" = "/var/lib/mock" +:+ rest)
  /\ ~ contains ".." "/var/lib/mock/fedora".
Proof.
  exact (check_allowed_accepts_only_contained sample_cfg sample_os
           "/var/lib/mock/fedora" eq_refl eq_refl).
Defined.

(** X2: the order of the refusals.  A path that does not begin with the
    root is refused as outside the root, whatever else it holds, and only
    such a path is; a path under the root that has [..] in it is refused
    for the traversal, whatever its last byte, and only such a path is. *)
Theorem check_allowed_refusals (cfg : Config) (os : World) (given : string) :
  nonul (ROOTSDIR cfg) = true ->
  (check_allowed cfg os given = Fatal OutsideRoot
   <-> String.prefix (ROOTSDIR cfg) given = false)
  /\ (check_allowed cfg os given = Fatal TraversalAttempt
      <-> String.prefix (ROOTSDIR cfg) given = true /\ contains ".." given).
Proof.
  intros Hn. unfold check_allowed. rewrite under_root_prefix by done.
  destruct (String.prefix (ROOTSDIR cfg) given) eqn:Hp;
    cbn [negb error_if res_bind].
  - destruct (bool_decide (strstr given ".." <> None)) eqn:Hd;
      cbn [error_if res_bind].
    + apply strstr_test in Hd. by repeat split.
    + assert (~ contains ".." given) as Hc
        by (intros Hc; apply strstr_test in Hc; congruence).
      destruct (rootsdir_at cfg os _) as [last|];
        [destruct (Ascii.eqb last "/")|]; cbn [error_if];
        (split; split; [done | done | done | by intros [_ ?]]).
  - split; split; try done. by intros [? _].
Qed.

Lemma check_allowed_refusals_witness :
  (check_allowed sample_cfg sample_os "/etc/../" = Fatal OutsideRoot
   <-> String.prefix "/var/lib/mock" "/etc/../" = false)
  /\ (check_allowed sample_cfg sample_os "/etc/../" = Fatal TraversalAttempt
      <-> String.prefix "/var/lib/mock" "/etc/../" = true
          /\ contains ".." "/etc/../").
Proof.
  exact (check_allowed_refusals sample_cfg sample_os "/etc/../" eq_refl).
Defined.

(** X3: the separator test never looks at the path.  [check_allowed]
    reports a trailing separator only when the path is the root itself
    and the root ends with one, or when the byte that the read outside
    the literal of the root finds is a separator. *)
Theorem check_allowed_trailing_separator_cases (cfg : Config) (os : World)
    (given : string) :
  nonul (ROOTSDIR cfg) = true ->
  check_allowed cfg os given = Fatal TrailingSeparator ->
  (given = ROOTSDIR cfg /\ last_char (ROOTSDIR cfg) = Some "/"%char)
  \/ ((strlen (ROOTSDIR cfg) + 1 < strlen given \/ given = EmptyString)%nat
      /\ beyond_rootsdir os (Z.of_nat (strlen given) - 1) = Some "/"%char).
Proof.
  intros Hn. unfold check_allowed. rewrite under_root_prefix by done.
  destruct (String.prefix (ROOTSDIR cfg) given) eqn:Hp; [|done].
  cbn [negb error_if res_bind].
  destruct (bool_decide (strstr given ".." <> None)); [done|].
  cbn [error_if res_bind]. unfold rootsdir_at.
  pose proof (strlen_prefix _ _ Hp) as Hle.
  destruct (decide (strlen given = strlen (ROOTSDIR cfg))) as [Heq|Hne].
  - apply prefix_same_length in Hp as ->; [|done].
    destruct (ROOTSDIR cfg) as [|c root] eqn:Hroot.
    + change (char_at EmptyString (Z.of_nat (strlen EmptyString) - 1))
        with (@None ascii).
      change (Z.of_nat (strlen EmptyString) - 1) with (-1).
      intros H. right. split; [by right|].
      destruct (beyond_rootsdir os (-1)) as [last|]; [|done].
      destruct (Ascii.eqb_spec last "/") as [Hl|]; [by rewrite Hl | done].
    + rewrite char_at_last by done. intros H. left. split; [done|].
      destruct (last_char_cons c root) as [last Hlast]. rewrite Hlast in H |- *.
      destruct (Ascii.eqb_spec last "/") as [Hl|]; [by rewrite Hl | done].
  - destruct (decide (strlen given = S (strlen (ROOTSDIR cfg)))) as [Heq|Hne'].
    + rewrite Heq.
      replace (Z.of_nat (S (strlen (ROOTSDIR cfg))) - 1)
        with (Z.of_nat (strlen (ROOTSDIR cfg))) by lia.
      by rewrite char_at_terminator.
    + unfold char_at. repeat (destruct (decide _)); try lia.
      intros H. right. split; [left; lia|].
      destruct (beyond_rootsdir os _) as [last|]; [|done].
      destruct (Ascii.eqb_spec last "/") as [Hl|]; [by rewrite Hl | done].
Qed.

Lemma check_allowed_trailing_separator_cases_witness :
  let cfg := {| ROOTSDIR := "/var/lib/mock/"; USE_SELINUX := false |} in
  check_allowed cfg sample_os "/var/lib/mock/" = Fatal TrailingSeparator
  /\ (("/var/lib/mock/" = ROOTSDIR cfg
       /\ last_char (ROOTSDIR cfg) = Some "/"%char)
      \/ ((strlen (ROOTSDIR cfg) + 1 < strlen "/var/lib/mock/"
           \/ "/var/lib/mock/" = EmptyString)%nat
          /\ beyond_rootsdir sample_os (Z.of_nat (strlen "/var/lib/mock/") - 1)
             = Some "/"%char)).
Proof.
  split; [reflexivity|].
  exact (check_allowed_trailing_separator_cases
           {| ROOTSDIR := "/var/lib/mock/"; USE_SELINUX := false |}
           sample_os "/var/lib/mock/" eq_refl eq_refl).
Defined.

Lemma check_allowed_no_exec cfg os given filename args envp :
  check_allowed cfg os given <> Exec filename args envp.
Proof.
  unfold check_allowed.
  destruct (negb _); [done|]. cbn [error_if res_bind].
  destruct (bool_decide _); [done|]. cbn [error_if res_bind].
  destruct (rootsdir_at cfg os _) as [last|]; [|done].
  by destruct (Ascii.eqb last "/").
Qed.

Lemma check_dir_allowed_no_exec cfg os given filename args envp :
  check_dir_allowed cfg os given <> Exec filename args envp.
Proof.
  unfold check_dir_allowed.
  pose proof (check_allowed_no_exec cfg os given filename args envp) as H.
  destruct (check_allowed cfg os given) as [[]| | |]; try done.
  cbn [res_bind]. destruct (lstat os given) as [m|]; [|done].
  destruct (S_ISLNK m); [done|]. cbn [error_if res_bind].
  by destruct (negb (S_ISDIR m)).
Qed.

(** X4: a path accepted as a directory is one [lstat] reports with the
    directory type, and the same path is refused as a file: no path
    passes both [check_dir_allowed] and [check_file_allowed]. *)
Theorem check_dir_allowed_excludes_file (cfg : Config) (os : World)
    (given : string) :
  check_dir_allowed cfg os given = Ret tt ->
  check_allowed cfg os given = Ret tt
  /\ (exists st_mode, lstat os given = Some st_mode
                      /\ Z.land st_mode S_IFMT = S_IFDIR)
  /\ check_file_allowed cfg os given = Fatal NotARegularFile.
Proof.
  unfold check_dir_allowed, check_file_allowed.
  destruct (check_allowed cfg os given) as [[]| | |]; try done.
  cbn [res_bind]. destruct (lstat os given) as [m|]; [|done].
  unfold S_ISLNK, S_ISDIR, S_ISREG.
  destruct (Z.eqb_spec (Z.land m S_IFMT) S_IFLNK); [done|].
  cbn [error_if res_bind].
  destruct (Z.eqb_spec (Z.land m S_IFMT) S_IFDIR) as [Hdir|]; [|done].
  intros _. split; [done|]. split; [by eexists|].
  by rewrite Hdir.
Qed.

Lemma check_dir_allowed_excludes_file_witness :
  check_allowed sample_cfg sample_os "/var/lib/mock/fedora" = Ret tt
  /\ (exists st_mode, lstat sample_os "/var/lib/mock/fedora" = Some st_mode
                      /\ Z.land st_mode S_IFMT = S_IFDIR)
  /\ check_file_allowed sample_cfg sample_os "/var/lib/mock/fedora"
     = Fatal NotARegularFile.
Proof.
  exact (check_dir_allowed_excludes_file sample_cfg sample_os
           "/var/lib/mock/fedora" eq_refl).
Defined.

(** ** Further properties of the subcommands *)

(** Case analysis along the checks of a subcommand, up to the check of
    its directory. *)
Ltac walk_checks cfg os argc argv :=
  repeat first
    [ match goal with
      | |- context [argc <? ?n] => destruct (argc <? n)
      | |- context [argv !! ?k] => destruct (argv !! k) eqn:?
      | |- context [strncmp ?a ?b ?n =? 0] => destruct (strncmp a b n =? 0)
      end
    | progress cbn [error_if res_bind negb fst] ].

(** X5: none of the subcommands that take a directory reaches [execve]
    unless that argument has passed [check_dir_allowed]. *)
Theorem exec_requires_validated_directory (cfg : Config) (os : World)
    (command : Z -> list string -> M unit) (position : nat)
    (argc : Z) (argv : list string)
    (filename : string) (args : list string) (envp : list (option string)) :
  (command, position) ∈ directory_commands cfg os ->
  outcome (command argc argv) = Exec filename args envp ->
  exists d, argv !! position = Some d /\ check_dir_allowed cfg os d = Ret tt.
Proof.
  intros Hin. unfold directory_commands in Hin.
  repeat (apply elem_of_cons in Hin as [[= -> ->] | Hin]);
    [ .. | by apply elem_of_nil in Hin ];
    unfold outcome, do_chroot, do_umount, do_rm, do_rpm, do_yum, do_unpack,
           do_pack, bind, lift, arg_matches, str;
    walk_checks cfg os argc argv; try done;
    intros Hexec; eexists; (split; [reflexivity|]);
    revert Hexec;
    match goal with
    | |- context [match check_dir_allowed cfg os ?d with _ => _ end] =>
      pose proof (check_dir_allowed_no_exec cfg os d filename args envp);
      destruct (check_dir_allowed cfg os d) as [[]| | |]; try done;
      cbn; congruence
    end.
Qed.

Lemma exec_requires_validated_directory_witness :
  exists d,
    ["mock-helper"; "umount"; "/var/lib/mock/fedora"] !! 2%nat = Some d
    /\ check_dir_allowed sample_cfg sample_os d = Ret tt.
Proof.
  eapply (exec_requires_validated_directory sample_cfg sample_os
            (do_umount sample_cfg sample_os) 2 3
            ["mock-helper"; "umount"; "/var/lib/mock/fedora"]).
  - apply list_elem_of_In. right. left. reflexivity.
  - vm_compute. reflexivity.
Defined.

Lemma check_each_no_exec cfg os argv count : forall i filename args envp,
  check_each cfg os argv i count <> Exec filename args envp.
Proof.
  induction count as [|count IH]; intros i filename args envp; [done|].
  cbn [check_each]. unfold str.
  destruct (argv !! i) as [given|]; [|done]. cbn [res_bind].
  pose proof (check_allowed_no_exec cfg os given filename args envp).
  destruct (check_allowed cfg os given) as [[]| | |]; try done.
  cbn [res_bind]. apply IH.
Qed.

(** The loop accepts exactly when every argument from [i] on passes. *)
Lemma check_each_Forall cfg os argv count : forall i,
  (i + count)%nat = length argv ->
  check_each cfg os argv i count = Ret tt
  <-> Forall (fun given => check_allowed cfg os given = Ret tt) (drop i argv).
Proof.
  induction count as [|count IH]; intros i Hlen.
  - rewrite drop_ge by lia. split; [constructor | done].
  - destruct (lookup_lt_is_Some_2 argv i) as [given Hi]; [lia|].
    rewrite (drop_S argv given i Hi), Forall_cons.
    cbn [check_each]. unfold str. rewrite Hi. cbn [res_bind].
    rewrite <- (IH (S i)) by lia.
    destruct (check_allowed cfg os given) as [[]| | |]; cbn [res_bind];
      split; try done; try (by intros [? ?]).
Qed.

(** X6: [chown] and [chmod] reach [execve] exactly when every argument
    from position 3 on passes [check_allowed]; the arguments before are
    not looked at, and the whole request from position 1 on is handed
    over, with the MAC preload asked for. *)
Theorem do_chown_chmod_check_every_path (cfg : Config) (os : World)
    (argv : list string) :
  (4 <= length argv)%nat ->
  let env := env_array (SanitizedEnvironment (mac_preload cfg os 1) (environ os)) in
  let contained :=
    Forall (fun given => check_allowed cfg os given = Ret tt) (drop 3 argv) in
  (outcome (do_chown cfg os (argc_of argv) argv)
   = Exec "/bin/chown" (drop 1 argv) env <-> contained)
  /\ (outcome (do_chmod cfg os (argc_of argv) argv)
      = Exec "/bin/chmod" (drop 1 argv) env <-> contained).
Proof.
  intros Hlen env contained. subst contained.
  rewrite <- (check_each_Forall cfg os argv (length argv - 3) 3) by lia.
  unfold outcome, do_chown, do_chmod, bind, lift.
  rewrite (argc_of_ge 4) by done. cbn [error_if].
  replace (Z.to_nat (argc_of argv - 3)) with (length argv - 3)%nat
    by (unfold argc_of; lia).
  pose proof (check_each_no_exec cfg os argv (length argv - 3) 3) as Hno.
  destruct (check_each cfg os argv 3 (length argv - 3)) as [[]| | |];
    rewrite ?do_command_spec; cbn [fst]; try done.
  exfalso. by eapply Hno.
Qed.

Lemma do_chown_chmod_check_every_path_witness :
  let argv := ["mock-helper"; "chown"; "mockbuild:mock";
               "/var/lib/mock/fedora"; "/etc/shadow"] in
  (outcome (do_chown sample_cfg sample_os 5 argv)
   = Exec "/bin/chown" (drop 1 argv)
       (env_array (SanitizedEnvironment true (environ sample_os)))
   <-> Forall (fun given => check_allowed sample_cfg sample_os given = Ret tt)
         (drop 3 argv))
  /\ (outcome (do_chmod sample_cfg sample_os 5 argv)
      = Exec "/bin/chmod" (drop 1 argv)
          (env_array (SanitizedEnvironment true (environ sample_os)))
      <-> Forall (fun given => check_allowed sample_cfg sample_os given = Ret tt)
            (drop 3 argv)).
Proof.
  apply (do_chown_chmod_check_every_path sample_cfg sample_os
           ["mock-helper"; "chown"; "mockbuild:mock";
            "/var/lib/mock/fedora"; "/etc/shadow"]).
  cbn. lia.
Defined.

(** X7: unlike [check_allowed], [do_mknod] tests the last byte of the
    path itself: a node path under the root, without [..], that ends
    with a separator is refused for its trailing separator. *)
Theorem do_mknod_refuses_trailing_separator (cfg : Config) (os : World)
    (a0 a1 a2 a3 : string) (rest : list string) :
  nonul (ROOTSDIR cfg) = true ->
  (4 <= length rest)%nat ->
  String.prefix (ROOTSDIR cfg) a2 = true ->
  ~ contains ".." a2 ->
  last_char a2 = Some "/"%char ->
  outcome (do_mknod cfg os (argc_of (a0 :: a1 :: a2 :: a3 :: rest))
                    (a0 :: a1 :: a2 :: a3 :: rest))
  = Fatal TrailingSeparator.
Proof.
  intros Hn Hlen Hp Hdots Hlast. unfold outcome, do_mknod, bind, lift, str.
  rewrite (argc_of_ge 8) by (cbn [length]; lia).
  cbn [error_if lookup list_lookup].
  rewrite under_root_prefix, Hp by done. cbn [negb error_if].
  rewrite bool_decide_eq_false_2 by (by rewrite strstr_contains).
  cbn [error_if].
  rewrite char_at_last, Hlast by (by intros ->).
  reflexivity.
Qed.

Lemma do_mknod_refuses_trailing_separator_witness :
  outcome (do_mknod sample_cfg sample_os 8
             ["mock-helper"; "mknod"; "/var/lib/mock/fedora/dev/";
              "-m"; "666"; "c"; "1"; "3"])
  = Fatal TrailingSeparator.
Proof.
  apply (do_mknod_refuses_trailing_separator sample_cfg sample_os
           "mock-helper" "mknod" "/var/lib/mock/fedora/dev/" "-m"
           ["666"; "c"; "1"; "3"]).
  - reflexivity.
  - cbn. lia.
  - reflexivity.
  - intros Hc. apply strstr_contains in Hc. by apply Hc.
  - reflexivity.
Defined.

(** X8: [mknod] reaches [execve] exactly when the node path begins with
    the root, has no [..], does not end with a separator, and argument 3
    begins with [-m].  The path need not exist, and the mode, type and
    device numbers behind it are handed over as they are. *)
Theorem do_mknod_exec_iff (cfg : Config) (os : World)
    (a0 a1 a2 a3 : string) (rest : list string) :
  nonul (ROOTSDIR cfg) = true ->
  (4 <= length rest)%nat ->
  a2 <> EmptyString ->
  outcome (do_mknod cfg os (argc_of (a0 :: a1 :: a2 :: a3 :: rest))
                    (a0 :: a1 :: a2 :: a3 :: rest))
  = Exec "/bin/mknod" (a1 :: a2 :: a3 :: rest)
         (env_array (SanitizedEnvironment false (environ os)))
  <-> String.prefix (ROOTSDIR cfg) a2 = true
      /\ ~ contains ".." a2
      /\ last_char a2 <> Some "/"%char
      /\ String.prefix "-m" a3 = true.
Proof.
  intros Hn Hlen Hne. unfold outcome, do_mknod, bind, lift, str.
  rewrite (argc_of_ge 8) by (cbn [length]; lia).
  cbn [error_if lookup list_lookup].
  rewrite under_root_prefix by done.
  destruct (String.prefix (ROOTSDIR cfg) a2); cbn [negb error_if];
    [|split; [done | by intros [? _]]].
  rewrite <- strstr_test.
  destruct (bool_decide (strstr a2 ".." <> None)); cbn [error_if];
    [split; [done | by intros (_ & ? & _)]|].
  rewrite char_at_last by done.
  destruct (last_char_cons_nonempty a2 Hne) as [last ->].
  destruct (Ascii.eqb_spec last "/") as [->|Hl]; cbn [error_if].
  - split; [done | by intros (_ & _ & ? & _)].
  - rewrite (arg_matches_literal "-m" _ 3 2 a3) by done. cbn [res_bind].
    destruct (String.prefix "-m" a3); cbn [negb error_if drop].
    + rewrite do_command_spec. cbn [fst].
      replace (mac_preload cfg os 0) with false
        by (unfold mac_preload; cbn; by rewrite !andb_false_r).
      split; [intros _ | done]. repeat split; try done. congruence.
    + split; [done | by intros (_ & _ & _ & ?)].
Qed.

Lemma do_mknod_exec_iff_witness :
  outcome (do_mknod sample_cfg sample_os 8
             ["mock-helper"; "mknod"; "/var/lib/mock/fedora/dev/null";
              "-m"; "666"; "c"; "1"; "3"])
  = Exec "/bin/mknod"
         ["mknod"; "/var/lib/mock/fedora/dev/null"; "-m"; "666"; "c"; "1"; "3"]
         (env_array (SanitizedEnvironment false (environ sample_os)))
  <-> String.prefix "/var/lib/mock" "/var/lib/mock/fedora/dev/null" = true
      /\ ~ contains ".." "/var/lib/mock/fedora/dev/null"
      /\ last_char "/var/lib/mock/fedora/dev/null" <> Some "/"%char
      /\ String.prefix "-m" "-m" = true.
Proof.
  apply (do_mknod_exec_iff sample_cfg sample_os "mock-helper" "mknod"
           "/var/lib/mock/fedora/dev/null" "-m" ["666"; "c"; "1"; "3"]).
  - reflexivity.
  - cbn. lia.
  - discriminate.
Defined.

Lemma mac_preload_0 cfg os : mac_preload cfg os 0 = false.
Proof. unfold mac_preload. cbn. by rewrite !andb_false_r. Qed.

(** The choice of the compression flag in [do_unpack] and [do_pack]. *)
Lemma tar_flag_cases a3 (bz gz plain : string) :
  bz <> gz -> bz <> plain -> gz <> plain ->
  let flag :=
    if bool_decide (strstr a3 ".bz2" <> None) then bz
    else if bool_decide (strstr a3 ".gz" <> None) then gz
    else plain in
  (flag = bz <-> contains ".bz2" a3)
  /\ (flag = gz <-> ~ contains ".bz2" a3 /\ contains ".gz" a3)
  /\ (flag = plain <-> ~ contains ".bz2" a3 /\ ~ contains ".gz" a3).
Proof.
  intros H1 H2 H3. cbn zeta. rewrite <- !strstr_contains.
  destruct (bool_decide (strstr a3 ".bz2" <> None)) eqn:Ebz.
  - apply bool_decide_eq_true in Ebz.
    repeat split; try done; try congruence; by intros [? ?].
  - apply bool_decide_eq_false in Ebz.
    destruct (bool_decide (strstr a3 ".gz" <> None)) eqn:Egz.
    + apply bool_decide_eq_true in Egz.
      repeat split; try done; try congruence; by intros [? ?].
    + apply bool_decide_eq_false in Egz.
      repeat split; try done; try congruence; by intros [? ?].
Qed.

(** X9: [unpack] hands to [tar] a vector of exactly four strings,
    whatever follows the archive in the request, and does not check the
    archive path itself.  The compression flag goes by occurrence, not by
    suffix: bzip2 when [.bz2] occurs anywhere in the name, else gzip when
    [.gz] occurs, else none. *)
Theorem do_unpack_runs_tar (cfg : Config) (os : World)
    (a0 a1 a2 a3 : string) (extra : list string) :
  check_dir_allowed cfg os a2 = Ret tt ->
  chdir os a2 = 0 ->
  exists flag,
    do_unpack cfg os (argc_of (a0 :: a1 :: a2 :: a3 :: extra))
              (a0 :: a1 :: a2 :: a3 :: extra) []
    = (Exec "/bin/tar" ["tar"; "--same-owner"; flag; a3]
            (env_array (SanitizedEnvironment false (environ os))),
       [EvChdir a2; EvSetreuid])
    /\ (flag = "-jxpf" <-> contains ".bz2" a3)
    /\ (flag = "-zxpf" <-> ~ contains ".bz2" a3 /\ contains ".gz" a3)
    /\ (flag = "-xpf" <-> ~ contains ".bz2" a3 /\ ~ contains ".gz" a3).
Proof.
  intros Hdir Hcd. unfold do_unpack, bind, lift, emit, str.
  rewrite (argc_of_ge 4) by (cbn [length]; lia).
  cbn [error_if lookup list_lookup]. rewrite Hdir, Hcd.
  cbn [Z.eqb negb error_if]. rewrite do_command_spec, mac_preload_0.
  eexists. split; [reflexivity|]. by apply tar_flag_cases.
Qed.

Lemma do_unpack_runs_tar_witness :
  exists flag,
    do_unpack sample_cfg sample_os 5
              ["mock-helper"; "unpack"; "/var/lib/mock/fedora";
               "/tmp/cache.bz2.gz"; "--to-command=sh"] []
    = (Exec "/bin/tar" ["tar"; "--same-owner"; flag; "/tmp/cache.bz2.gz"]
            (env_array (SanitizedEnvironment false (environ sample_os))),
       [EvChdir "/var/lib/mock/fedora"; EvSetreuid])
    /\ (flag = "-jxpf" <-> contains ".bz2" "/tmp/cache.bz2.gz")
    /\ (flag = "-zxpf" <-> ~ contains ".bz2" "/tmp/cache.bz2.gz"
                           /\ contains ".gz" "/tmp/cache.bz2.gz")
    /\ (flag = "-xpf" <-> ~ contains ".bz2" "/tmp/cache.bz2.gz"
                          /\ ~ contains ".gz" "/tmp/cache.bz2.gz").
Proof.
  exact (do_unpack_runs_tar sample_cfg sample_os "mock-helper" "unpack"
           "/var/lib/mock/fedora" "/tmp/cache.bz2.gz" ["--to-command=sh"]
           eq_refl eq_refl).
Defined.

(** X10: every path [do_pack] changes into, creates or changes the owner
    of has passed [check_dir_allowed] before (so [mkdir], always with mode
    0750, only meets directories that exist), the owner set is root with
    the group [mock], and no process is signalled; this holds for every
    request, accepted or not. *)
Theorem do_pack_touches_validated_directories (cfg : Config) (os : World)
    (argc : Z) (argv : list string) :
  Forall (pack_event_ok cfg os) (effects (do_pack cfg os argc argv)).
Proof.
  unfold effects, do_pack, bind, lift, emit, ret, str.
  destruct (argc <? 5); cbn [error_if snd]; [constructor|].
  destruct (argv !! 2%nat) as [a2|]; [|constructor].
  destruct (check_dir_allowed cfg os a2) as [[]| | |] eqn:Hdir;
    try constructor.
  cbn [app].
  destruct (negb (chdir os a2 =? 0)); cbn [error_if];
    [by repeat constructor|].
  destruct (argv !! 3%nat) as [a3|]; [|by repeat constructor].
  destruct (check_dir_allowed cfg os (dirname os a3)) as [[]| | |] eqn:Hparent;
    try (by repeat constructor).
  cbn [app].
  destruct (getgrnam_mock os) as [gid|] eqn:Hgr; cbn [app];
    (destruct (argv !! 4%nat) as [a4|];
     [|destruct (decide (length argv = 4%nat))]);
    rewrite ?do_command_spec, ?mac_preload_0; cbn [snd app];
    repeat (apply Forall_cons; split; [by cbn|]); constructor.
Qed.

(** X11: when the directory to pack and the parent of the archive are
    both validated directories and [chdir] succeeds, [pack] changes into
    the directory, calls [mkdir] and, if the group [mock] exists, [chown]
    on the parent, and then hands [tar] exactly five strings (what
    follows argument 4 is dropped), with the compression flag chosen as
    for [unpack]. *)
Theorem do_pack_runs_tar (cfg : Config) (os : World)
    (a0 a1 a2 a3 a4 : string) (extra : list string) :
  check_dir_allowed cfg os a2 = Ret tt ->
  chdir os a2 = 0 ->
  check_dir_allowed cfg os (dirname os a3) = Ret tt ->
  exists flag,
    do_pack cfg os (argc_of (a0 :: a1 :: a2 :: a3 :: a4 :: extra))
            (a0 :: a1 :: a2 :: a3 :: a4 :: extra) []
    = (Exec "/bin/tar" ["tar"; "--one-file-system"; flag; a3; a4]
            (env_array (SanitizedEnvironment false (environ os))),
       [EvChdir a2; EvMkdir (dirname os a3) 0x1E8]
       ++ match getgrnam_mock os with
          | Some gid => [EvChown (dirname os a3) 0 gid]
          | None => []
          end
       ++ [EvSetreuid])
    /\ (flag = "-jcf" <-> contains ".bz2" a3)
    /\ (flag = "-zcf" <-> ~ contains ".bz2" a3 /\ contains ".gz" a3)
    /\ (flag = "-cf" <-> ~ contains ".bz2" a3 /\ ~ contains ".gz" a3).
Proof.
  intros Hdir Hcd Hparent. unfold do_pack, bind, lift, emit, ret, str.
  rewrite (argc_of_ge 5) by (cbn [length]; lia).
  cbn [error_if lookup list_lookup]. rewrite Hdir, Hcd.
  cbn [Z.eqb negb error_if]. rewrite Hparent.
  destruct (getgrnam_mock os) as [gid|];
    rewrite do_command_spec, mac_preload_0;
    (eexists; split; [reflexivity | by apply tar_flag_cases]).
Qed.

Lemma do_pack_runs_tar_witness :
  exists flag,
    do_pack sample_cfg sample_os 6
            ["mock-helper"; "pack"; "/var/lib/mock/fedora";
             "/var/lib/mock/fedora/root.tar.gz"; "."; "--remove-files"] []
    = (Exec "/bin/tar"
            ["tar"; "--one-file-system"; flag;
             "/var/lib/mock/fedora/root.tar.gz"; "."]
            (env_array (SanitizedEnvironment false (environ sample_os))),
       [EvChdir "/var/lib/mock/fedora";
        EvMkdir "/var/lib/mock/fedora" 0x1E8;
        EvChown "/var/lib/mock/fedora" 0 135; EvSetreuid])
    /\ (flag = "-jcf" <-> contains ".bz2" "/var/lib/mock/fedora/root.tar.gz")
    /\ (flag = "-zcf" <-> ~ contains ".bz2" "/var/lib/mock/fedora/root.tar.gz"
                          /\ contains ".gz" "/var/lib/mock/fedora/root.tar.gz")
    /\ (flag = "-cf" <-> ~ contains ".bz2" "/var/lib/mock/fedora/root.tar.gz"
                         /\ ~ contains ".gz" "/var/lib/mock/fedora/root.tar.gz").
Proof.
  exact (do_pack_runs_tar sample_cfg sample_os "mock-helper" "pack"
           "/var/lib/mock/fedora" "/var/lib/mock/fedora/root.tar.gz" "."
           ["--remove-files"] eq_refl eq_refl eq_refl).
Defined.

Lemma length_omap_bound {A B} (f : A -> option B) l :
  (length (omap f l) <= length l)%nat.
Proof.
  induction l as [|a l IH]; cbn; [done|]. destruct (f a); cbn; lia.
Qed.

Lemma length_omap_lt {A B} (f : A -> option B) l :
  (length (omap f l) < length l)%nat <-> Exists (fun a => f a = None) l.
Proof.
  induction l as [|a l IH]; cbn.
  - split; [lia | by intros H%Exists_nil].
  - rewrite Exists_cons, <- IH. pose proof (length_omap_bound f l).
    destruct (f a); cbn; split; try lia.
    + intros [? | ?]; [done | lia].
    + intros _. by left.
Qed.

(** X12: the array handed to [execve] has a null entry exactly when the
    preload entry is not added or one of the six allow-listed names is
    not set by the caller. *)
Theorem do_command_env_terminated_iff (cfg : Config) (os : World)
    (filename : string) (argv : list string) (preload : Z) :
  exists envp,
    outcome (do_command cfg os filename argv preload)
    = Exec filename argv envp
    /\ (None ∈ envp
        <-> mac_preload cfg os preload = false
            \/ Exists (fun name => getenv (environ os) name = None)
                      ALLOWED_ENV).
Proof.
  eexists. split; [unfold outcome; by rewrite do_command_spec|].
  assert (Hentry : forall name, name ∈ ALLOWED_ENV ->
            (getenv (environ os) name = None
             <-> caller_entry (environ os) name = None)).
  { intros name Hin. rewrite getenv_caller_entry.
    - by destruct (caller_entry (environ os) name).
    - revert name Hin. apply Forall_forall. repeat constructor. }
  assert (Hex : Exists (fun name => getenv (environ os) name = None) ALLOWED_ENV
                <-> Exists (fun name => caller_entry (environ os) name = None)
                           ALLOWED_ENV).
  { rewrite !Exists_exists. split; intros (name & Hin & H); exists name;
      (split; [done|]); by apply Hentry. }
  rewrite Hex, <- length_omap_lt.
  unfold env_array, SanitizedEnvironment.
  set (copied := omap (caller_entry (environ os)) ALLOWED_ENV).
  pose proof (length_omap_bound (caller_entry (environ os)) ALLOWED_ENV) as Hle.
  fold copied in Hle.
  change (length ALLOWED_ENV) with 6%nat in *.
  rewrite elem_of_app, list_elem_of_fmap, elem_of_replicate.
  rewrite !length_app. change ALLOWED_ENV_SIZE with 6%nat.
  destruct (mac_preload cfg os preload); cbn [length Nat.add]; split.
  - intros [(? & ? & ?) | [_ Hn]]; [done|]. right. lia.
  - intros [? | ?]; [done|]. right. split; [done | lia].
  - intros _. by left.
  - intros _. right. split; [done | lia].
Qed.

Lemma prefix_t_not_bind a2 :
  String.prefix "-t" a2 = true -> String.prefix "--bind" a2 = false.
Proof.
  destruct a2 as [|c1 [|c2 a2]]; [done | |].
  - rewrite !prefix_cons, prefix_cons_nil. by rewrite andb_false_r.
  - rewrite !prefix_cons.
    destruct (Ascii.eqb "-" c1); [|done]. cbn [andb].
    destruct (Ascii.eqb_spec "t" c2) as [<-|]; done.
Qed.

(** X13: a mount request of at least six arguments reaches [/bin/mount]
    exactly when its option tokens begin with [-t] and [proc] or
    [devpts] and argument 5 begins with the root, or they begin with
    [--bind] and [/dev] and argument 4 begins with the root.  Nothing
    else is asked of the destination: it may hold [..]. *)
Theorem do_mount_exec_iff (cfg : Config) (os : World)
    (a0 a1 a2 a3 a4 a5 : string) (rest : list string) :
  nonul (ROOTSDIR cfg) = true ->
  let argv := a0 :: a1 :: a2 :: a3 :: a4 :: a5 :: rest in
  outcome (do_mount cfg os (argc_of argv) argv)
  = Exec "/bin/mount" (drop 1 argv)
         (env_array (SanitizedEnvironment false (environ os)))
  <-> (String.prefix "-t" a2 = true
       /\ (String.prefix "proc" a3 = true \/ String.prefix "devpts" a3 = true)
       /\ String.prefix (ROOTSDIR cfg) a5 = true)
      \/ (String.prefix "--bind" a2 = true
          /\ String.prefix "/dev" a3 = true
          /\ String.prefix (ROOTSDIR cfg) a4 = true).
Proof.
  intros Hn argv. unfold outcome. subst argv. rewrite do_mount_checks.
  cbn [lookup list_lookup].
  rewrite !strncmp_literal by done.
  assert (Hexec : (do_command cfg os "/bin/mount"
                     (drop 1 (a0 :: a1 :: a2 :: a3 :: a4 :: a5 :: rest)) 0 []).1
                  = Exec "/bin/mount"
                      (drop 1 (a0 :: a1 :: a2 :: a3 :: a4 :: a5 :: rest))
                      (env_array (SanitizedEnvironment false (environ os))))
    by (by rewrite do_command_spec, mac_preload_0).
  destruct (String.prefix "-t" a2) eqn:Et.
  - rewrite (prefix_t_not_bind a2 Et). cbn [andb].
    destruct (String.prefix "proc" a3), (String.prefix "devpts" a3),
      (String.prefix (ROOTSDIR cfg) a5); cbn [fst];
      (split; [intros H; try done; left; auto | ]);
      (intros [(_ & [?|?] & ?) | (? & _)]; done).
  - cbn [andb].
    destruct (String.prefix "--bind" a2), (String.prefix "/dev" a3),
      (String.prefix (ROOTSDIR cfg) a4); cbn [andb fst];
      (split; [intros H; try done; right; auto | ]);
      (intros [(? & _) | (? & ? & ?)]; done).
Qed.

Lemma do_mount_exec_iff_witness :
  let argv := ["mock-helper"; "mount"; "--bind"; "/dev";
               "/var/lib/mock/../../etc"; "ignored"] in
  outcome (do_mount sample_cfg sample_os 6 argv)
  = Exec "/bin/mount" (drop 1 argv)
         (env_array (SanitizedEnvironment false (environ sample_os)))
  <-> (String.prefix "-t" "--bind" = true
       /\ (String.prefix "proc" "/dev" = true
           \/ String.prefix "devpts" "/dev" = true)
       /\ String.prefix "/var/lib/mock" "ignored" = true)
      \/ (String.prefix "--bind" "--bind" = true
          /\ String.prefix "/dev" "/dev" = true
          /\ String.prefix "/var/lib/mock" "/var/lib/mock/../../etc" = true).
Proof.
  exact (do_mount_exec_iff sample_cfg sample_os "mock-helper" "mount"
           "--bind" "/dev" "/var/lib/mock/../../etc" "ignored" [] eq_refl).
Defined.

(** With one more byte than the literal has, [strncmp] compares the
    terminators too. *)
Lemma strncmp_exact lit s :
  nonul lit = true -> nonul s = true ->
  strncmp lit s (S (strlen lit)) = 0 -> s = lit.
Proof.
  revert s. induction lit as [|c lit IH]; intros s Hlit Hs.
  - destruct s as [|c' s]; [done|]. cbn. intros H.
    cbn in Hs. apply andb_prop in Hs as [Hc _].
    assert (c' = Ascii.zero) as -> by (apply uchar_zero; lia).
    by rewrite Ascii.eqb_refl in Hc.
  - cbn in Hlit. apply andb_prop in Hlit as [Hc Hlit].
    destruct s as [|c' s]; cbn [strlen String.length strncmp].
    + intros H. assert (c = Ascii.zero) as -> by (apply uchar_zero; lia).
      by rewrite Ascii.eqb_refl in Hc.
    + cbn in Hs. apply andb_prop in Hs as [_ Hs].
      destruct (Ascii.eqb_spec c c') as [->|Hne].
      * intros H. f_equal. by apply IH.
      * intros H. exfalso. apply Hne, uchar_inj. lia.
Qed.

(** X14: [rm] takes [-rf] and nothing else: the comparison runs over
    four bytes, the terminator included, so every other option token is
    refused, also one that begins with [-rf]. *)
Theorem do_rm_option_exact (cfg : Config) (os : World)
    (a0 a1 a2 a3 : string) (rest : list string) :
  nonul a2 = true ->
  a2 <> "-rf" ->
  outcome (do_rm cfg os (argc_of (a0 :: a1 :: a2 :: a3 :: rest))
                 (a0 :: a1 :: a2 :: a3 :: rest))
  = Fatal UnrecognizedOption.
Proof.
  intros Hn Hne. unfold outcome, do_rm, bind, lift, arg_matches, str.
  rewrite (argc_of_ge 4) by (cbn [length]; lia).
  cbn [error_if lookup list_lookup res_bind].
  destruct (Z.eqb_spec (strncmp "-rf" a2 4) 0) as [H|]; [|done].
  apply (strncmp_exact "-rf" a2 eq_refl Hn) in H. done.
Qed.

Lemma do_rm_option_exact_witness :
  outcome (do_rm sample_cfg sample_os 4
             ["mock-helper"; "rm"; "-rfv"; "/var/lib/mock/fedora"])
  = Fatal UnrecognizedOption.
Proof.
  apply (do_rm_option_exact sample_cfg sample_os "mock-helper" "rm" "-rfv"
           "/var/lib/mock/fedora" []); [reflexivity | discriminate].
Defined.

(** ** The entry point *)

(** Evaluate the comparisons of [main] on a token whose first bytes are
    known. *)
Ltac eval_dispatch :=
  repeat match goal with
         | |- context [strncmp ?lit ?s ?n =? 0] =>
           let b := eval vm_compute in (strncmp lit s n =? 0) in
           change (strncmp lit s n =? 0) with b
         end;
  cbv beta iota.

(** X15: [main] runs the command whose name begins [argv[1]]: the
    comparison covers the length of the name only, and no name hides
    another, so every token that begins with a command name, the name
    itself included, reaches the function of that command, followed by
    [exit (0)]. *)
Theorem main_dispatch_by_prefix (cfg : Config) (os : World)
    (name : string) (command : Z -> list string -> M unit)
    (argc : Z) (argv : list string) (a1 : string) :
  (name, command) ∈ command_table cfg os ->
  (argc <? 2) = false ->
  argv !! 1%nat = Some a1 ->
  String.prefix name a1 = true ->
  main cfg os argc argv = then_exit (command argc argv).
Proof.
  intros Hin Hargc Ha1 Hp. unfold main, str. rewrite Hargc, Ha1.
  apply prefix_app in Hp as [rest ->].
  unfold command_table in Hin.
  repeat (apply elem_of_cons in Hin as [[= -> ->] | Hin]);
    [ .. | by apply elem_of_nil in Hin ];
    unfold bind, lift; eval_dispatch; reflexivity.
Qed.

Lemma main_dispatch_by_prefix_witness :
  main sample_cfg sample_os 4
       ["mock-helper"; "rmdir"; "-rf"; "/var/lib/mock/fedora"]
  = then_exit (do_rm sample_cfg sample_os 4
                 ["mock-helper"; "rmdir"; "-rf"; "/var/lib/mock/fedora"]).
Proof.
  apply (main_dispatch_by_prefix sample_cfg sample_os "rm"
           (do_rm sample_cfg sample_os) 4
           ["mock-helper"; "rmdir"; "-rf"; "/var/lib/mock/fedora"] "rmdir").
  - apply list_elem_of_In. right. right. left. reflexivity.
  - reflexivity.
  - reflexivity.
  - reflexivity.
Defined.

(** X16: a token that begins with none of the twelve command names is
    reported as not recognized, and nothing else happens: no function of
    a command runs and no event is recorded. *)
Theorem main_command_not_recognized (cfg : Config) (os : World)
    (argc : Z) (argv : list string) (a1 : string) :
  (argc <? 2) = false ->
  argv !! 1%nat = Some a1 ->
  Forall (fun entry => String.prefix entry.1 a1 = false) (command_table cfg os) ->
  main cfg os argc argv [] = (Ret ExitNotRecognized, []).
Proof.
  intros Hargc Ha1 Hnone. unfold main, str, bind, lift. rewrite Hargc, Ha1.
  unfold command_table in Hnone.
  repeat (apply Forall_cons in Hnone as [? Hnone]). cbn [fst] in *.
  repeat rewrite strncmp_literal_n by done.
  by repeat match goal with H : String.prefix _ a1 = false |- _ =>
                     rewrite H; clear H end.
Qed.

Lemma main_command_not_recognized_witness :
  main sample_cfg sample_os 2 ["mock-helper"; "shutdown"] []
  = (Ret ExitNotRecognized, []).
Proof.
  apply (main_command_not_recognized sample_cfg sample_os 2
           ["mock-helper"; "shutdown"] "shutdown"); try reflexivity.
  repeat (apply Forall_cons; split; [reflexivity|]). apply Forall_nil_2.
Defined.

Lemma never_returns_bind_l {A B} (m : M A) (k : A -> M B) :
  never_returns m -> never_returns (bind m k).
Proof.
  intros Hm tr b. unfold bind. pose proof (Hm tr) as H.
  destruct (m tr) as [[a| | |] tr']; cbn [fst] in *; try done.
  by exfalso; eapply H.
Qed.

Lemma never_returns_bind_r {A B} (m : M A) (k : A -> M B) :
  (forall a, never_returns (k a)) -> never_returns (bind m k).
Proof.
  intros Hk tr b. unfold bind.
  destruct (m tr) as [[a| | |] tr']; cbn [fst]; try done. apply Hk.
Qed.

Lemma do_command_never_returns cfg os filename argv preload :
  never_returns (do_command cfg os filename argv preload).
Proof. intros tr a. by rewrite do_command_spec. Qed.

(** Every subcommand but the reaper ends in [do_command]. *)
Lemma commands_never_return cfg os name command argc argv :
  (name, command) ∈ command_table cfg os ->
  name <> "orphanskill" ->
  never_returns (command argc argv).
Proof.
  intros Hin Hname. unfold command_table in Hin.
  repeat (apply elem_of_cons in Hin as [[= -> ->] | Hin]);
    [ .. | by apply elem_of_nil in Hin ]; try done;
    unfold do_chroot, do_mount, do_rm, do_umount, do_rpm, do_mknod, do_yum,
           do_unpack, do_pack, do_chown, do_chmod;
    repeat first [ apply do_command_never_returns
                 | apply never_returns_bind_r; intros ? ].
Qed.

(** X17: [main] comes to its [exit (0)] only through the orphan reaper.
    Every other command ends in [execve] or in an error, so a run that
    ends with [ExitSuccess] had a token beginning with [orphanskill] and a
    scan that came back. *)
Theorem main_success_only_after_reaping (cfg : Config) (os : World)
    (argc : Z) (argv : list string) :
  outcome (main cfg os argc argv) = Ret ExitSuccess ->
  exists a1,
    argv !! 1%nat = Some a1
    /\ String.prefix "orphanskill" a1 = true
    /\ outcome (do_orphanskill cfg os argc argv) = Ret tt.
Proof.
  unfold outcome, main, usage. destruct (argc <? 2); [done|].
  unfold bind at 1, lift at 1, str.
  destruct (argv !! 1%nat) as [a1|]; [|done].
  assert (Hnr : forall name command,
            (name, command) ∈ command_table cfg os ->
            name <> "orphanskill" ->
            (then_exit (command argc argv) []).1 <> Ret ExitSuccess).
  { intros name command Hin Hname.
    apply never_returns_bind_l. by eapply commands_never_return. }
  repeat match goal with
         | |- context [if strncmp ?lit a1 ?n =? 0 then then_exit (?c argc argv) else _] =>
           destruct (strncmp lit a1 n =? 0) eqn:?;
           [ first
               [ intros H; exfalso; revert H;
                 apply (Hnr lit c); [apply list_elem_of_In; cbn; tauto | done]
               | idtac ] | ]
         end; [|done].
  rewrite strncmp_literal_n in * by done.
  intros H. exists a1. split; [done|]. split; [done|].
  unfold then_exit, bind, ret in H.
  destruct (do_orphanskill cfg os argc argv []) as [[[]| | |] tr]; done.
Qed.

Lemma main_success_only_after_reaping_witness :
  exists a1,
    ["mock-helper"; "orphanskill"; "/var/lib/mock/fedora"] !! 1%nat = Some a1
    /\ String.prefix "orphanskill" a1 = true
    /\ outcome (do_orphanskill sample_cfg sample_os 3
                  ["mock-helper"; "orphanskill"; "/var/lib/mock/fedora"])
       = Ret tt.
Proof.
  apply (main_success_only_after_reaping sample_cfg sample_os 3
           ["mock-helper"; "orphanskill"; "/var/lib/mock/fedora"]).
  vm_compute. reflexivity.
Defined.

(** ** Further properties of the orphan reaper *)

Lemma char_at_skip_digits s :
  nonul s = true ->
  bool_decide (char_at s (Z.of_nat (skip_digits s)) = Some Ascii.zero)
  = all_digits s.
Proof.
  induction s as [|c s IH]; intros Hn; [done|].
  cbn in Hn. apply andb_prop in Hn as [Hc Hn].
  cbn [skip_digits all_digits]. destruct (isdigit c); cbn [andb].
  - rewrite char_at_cons. by apply IH.
  - change (Z.of_nat 0) with 0. rewrite char_at_head.
    apply bool_decide_eq_false_2. intros [= ->]. by rewrite Ascii.eqb_refl in Hc.
Qed.

(** The test on [d_name] lets through the nonempty strings of digits
    and nothing else. *)
Lemma name_test s :
  nonul s = true ->
  bool_decide (skip_digits s = O)
  || negb (bool_decide (char_at s (Z.of_nat (skip_digits s)) = Some Ascii.zero))
  = negb (pid_name s).
Proof.
  intros Hn. rewrite char_at_skip_digits by done.
  destruct s as [|c s]; [done|]. cbn [skip_digits pid_name all_digits].
  destruct (isdigit c); cbn [andb negb]; [|done].
  by rewrite bool_decide_eq_false_2.
Qed.

(** X18: the reaper leaves alone every entry of [/proc] that is not a
    directory with a nonempty name of digits only: it neither probes nor
    signals anything for it, and the scan goes on. *)
Theorem orphanskill_entry_skips_other_entries (os : World)
    (chrootdir : string) (chrootdir_len : nat) (ent : dirent)
    (tr : list event) :
  nonul (d_name ent) = true ->
  d_type ent <> DT_DIR \/ pid_name (d_name ent) = false ->
  orphanskill_entry os chrootdir chrootdir_len ent tr = (Ret tt, tr).
Proof.
  intros Hn Hskip. unfold orphanskill_entry.
  destruct (Z.eqb_spec (d_type ent) DT_DIR) as [Hdir|]; cbn [negb]; [|done].
  destruct Hskip as [? | Hname]; [done|].
  by rewrite name_test, Hname.
Qed.

Lemma orphanskill_entry_skips_other_entries_witness :
  orphanskill_entry sample_os "/var/lib/mock/fedora" 21
    {| d_type := DT_DIR; d_name := "self" |} []
  = (Ret tt, []).
Proof.
  apply (orphanskill_entry_skips_other_entries sample_os
           "/var/lib/mock/fedora" 21 {| d_type := DT_DIR; d_name := "self" |} []).
  - reflexivity.
  - right. reflexivity.
Defined.

Lemma digits_value_lower s : forall acc, 0 <= acc -> 0 <= digits_value s acc.
Proof.
  induction s as [|c s IH]; intros acc Hacc; cbn [digits_value]; [done|].
  unfold isdigit. destruct (Z.leb_spec 48 (uchar c)); cbn [andb]; [|done].
  destruct (uchar c <=? 57); [|done]. apply IH. lia.
Qed.

Lemma atoi_range s pid : atoi s = Some pid -> 0 <= pid <= INT_MAX.
Proof.
  unfold atoi. pose proof (digits_value_lower s 0).
  destruct (Z.leb_spec (digits_value s 0) INT_MAX); [|done].
  intros [= <-]. lia.
Qed.

Lemma memcmp_refl b : memcmp b b (String.length b) = Some 0.
Proof.
  induction b as [|c b IH]; [done|]. cbn. by rewrite Ascii.eqb_refl.
Qed.

(** The path of the root link of a process fits its buffer. *)
Lemma proc_root_fits pid :
  0 <= pid <= INT_MAX ->
  let got := Z.of_nat (strlen ("/proc/" +:+ fmt_d pid +:+ "/root")) in
  (got <=? 0) || (got >=? 64) = false.
Proof.
  intros Hpid. cbn zeta. rewrite !strlen_app.
  pose proof (strlen_fmt_d pid Hpid).
  change (strlen "/proc/") with 6%nat. change (strlen "/root") with 5%nat.
  apply orb_false_intro; [apply Z.leb_gt | rewrite Z.geb_leb; apply Z.leb_gt]; lia.
Qed.

Lemma orphanskill_pid_signals os pid tr :
  (orphanskill_pid os pid tr).1 = Ret tt ->
  EvKill pid SIGKILL ∈ (orphanskill_pid os pid tr).2.
Proof.
  unfold orphanskill_pid, bind, lift, emit, ret.
  destruct (pid =? getpid os); cbn [error_if]; [done|].
  destruct (read_cmdline os pid tr) as [[got| | |] tr']; try done.
  intros _. destruct (kill os pid =? 0); cbn [snd];
    rewrite !elem_of_app, !list_elem_of_singleton; auto.
Qed.

(** A matching entry that the reaper gets past has been signalled. *)
Lemma orphanskill_entry_signals os chrootdir ent pid tr :
  d_type ent = DT_DIR ->
  nonul (d_name ent) = true ->
  pid_name (d_name ent) = true ->
  atoi (d_name ent) = Some pid ->
  readlink_target os ("/proc/" +:+ fmt_d pid +:+ "/root") = Some chrootdir ->
  (orphanskill_entry os chrootdir (strlen chrootdir + 1) ent tr).1 = Ret tt ->
  EvKill pid SIGKILL
  ∈ (orphanskill_entry os chrootdir (strlen chrootdir + 1) ent tr).2.
Proof.
  intros Hdir Hn Hname Hatoi Hlink. unfold orphanskill_entry.
  rewrite Hdir, Z.eqb_refl. cbn [negb].
  rewrite name_test, Hname, Hatoi by done. cbn [negb].
  rewrite (proc_root_fits pid (atoi_range _ _ Hatoi)).
  unfold readlink. rewrite Hlink. cbn [fmap option_fmap option_map].
  rewrite substring_short by (unfold strlen; lia).
  replace (strlen chrootdir + 1 - 1)%nat with (strlen chrootdir) by lia.
  rewrite Nat.eqb_refl. cbn [negb].
  change (strlen chrootdir) with (String.length chrootdir).
  rewrite memcmp_refl. cbn [Z.eqb negb].
  apply orphanskill_pid_signals.
Qed.

Lemma orphanskill_scan_signals os chrootdir ent pid ents : forall tr,
  ent ∈ ents ->
  d_type ent = DT_DIR ->
  nonul (d_name ent) = true ->
  pid_name (d_name ent) = true ->
  atoi (d_name ent) = Some pid ->
  readlink_target os ("/proc/" +:+ fmt_d pid +:+ "/root") = Some chrootdir ->
  (orphanskill_scan os chrootdir (strlen chrootdir + 1) ents tr).1 = Ret tt ->
  EvKill pid SIGKILL
  ∈ (orphanskill_scan os chrootdir (strlen chrootdir + 1) ents tr).2.
Proof.
  induction ents as [|first ents IH]; intros tr Hin Hdir Hn Hname Hatoi Hlink;
    [by apply elem_of_nil in Hin|].
  cbn [orphanskill_scan]. unfold bind at 1 2.
  pose proof (orphanskill_entry_signals os chrootdir ent pid tr
                Hdir Hn Hname Hatoi Hlink) as Hfirst.
  destruct (orphanskill_entry os chrootdir (strlen chrootdir + 1) first tr)
    as [[[]| | |] tr1] eqn:E; try done.
  intros Hrest. apply elem_of_cons in Hin as [<- | Hin].
  - rewrite E in Hfirst. cbn [fst snd] in Hfirst.
    destruct (orphanskill_scan_kills os chrootdir ents tr1) as (evs & -> & _).
    apply elem_of_app. left. by apply Hfirst.
  - by apply IH.
Qed.

(** X19: the reaper misses no orphan.  When [do_orphanskill] comes back,
    every directory of [/proc] with a name of digits whose process has
    the given chroot path as the target of its root link has been sent
    [SIGKILL]. *)
Theorem do_orphanskill_reaps_every_match (cfg : Config) (os : World)
    (argc : Z) (argv : list string) (chrootdir : string)
    (ents : list dirent) (ent : dirent) (pid : Z) :
  outcome (do_orphanskill cfg os argc argv) = Ret tt ->
  argv !! 2%nat = Some chrootdir ->
  proc_entries os = Some ents ->
  ent ∈ ents ->
  d_type ent = DT_DIR ->
  nonul (d_name ent) = true ->
  pid_name (d_name ent) = true ->
  atoi (d_name ent) = Some pid ->
  readlink_target os ("/proc/" +:+ fmt_d pid +:+ "/root") = Some chrootdir ->
  EvKill pid SIGKILL ∈ effects (do_orphanskill cfg os argc argv).
Proof.
  intros Hret Harg Hents Hin Hdir Hn Hname Hatoi Hlink. revert Hret.
  unfold outcome, effects, do_orphanskill, bind, lift, str.
  rewrite Harg, Hents.
  destruct (argc <? 3); cbn [error_if]; [done|].
  destruct (check_dir_allowed cfg os chrootdir) as [[]| | |]; try done.
  destruct (malloc_ok os); cbn [negb error_if]; [|done].
  by apply orphanskill_scan_signals with ent.
Qed.

Lemma do_orphanskill_reaps_every_match_witness :
  EvKill 42 SIGKILL
  ∈ effects (do_orphanskill sample_cfg sample_os 3
               ["mock-helper"; "orphanskill"; "/var/lib/mock/fedora"]).
Proof.
  apply (do_orphanskill_reaps_every_match sample_cfg sample_os 3
           ["mock-helper"; "orphanskill"; "/var/lib/mock/fedora"]
           "/var/lib/mock/fedora"
           [ {| d_type := DT_DIR; d_name := "1" |};
             {| d_type := DT_DIR; d_name := "self" |};
             {| d_type := DT_DIR; d_name := "42" |};
             {| d_type := DT_DIR; d_name := "43" |} ]
           {| d_type := DT_DIR; d_name := "42" |} 42); try reflexivity.
  apply list_elem_of_In. cbn. tauto.
Defined.

Lemma nonul_map_nul_to_space s : nonul (map_string nul_to_space s) = true.
Proof.
  induction s as [|c s IH]; [done|]. cbn [map_string nonul]. rewrite IH.
  unfold nul_to_space. destruct (Ascii.eqb_spec c Ascii.zero) as [->|Hc].
  - reflexivity.
  - destruct (Ascii.eqb_spec c Ascii.zero); done.
Qed.

(** [trim_right] cuts a run of white space at the end, and all of it. *)
Lemma trim_right_spec s :
  (exists ws, s = trim_right s +:+ ws /\ all_space ws = true)
  /\ (nonul s = true -> nonul (trim_right s) = true)
  /\ (forall c, last_char (trim_right s) = Some c -> isspace c = false).
Proof.
  induction s as [|ch s (IHws & IHn & IHlast)].
  - split; [exists EmptyString; split; reflexivity|]. by split.
  - cbn [trim_right nonul]. destruct IHws as (ws & Hs & Hws).
    destruct (trim_right s) as [|c' t] eqn:E.
    + rewrite append_nil in Hs. subst ws.
      destruct (isspace ch) eqn:Hch.
      * split; [|by split]. exists (String ch s). split; [reflexivity|].
        cbn [all_space]. by rewrite Hch, Hws.
      * split; [exists s; split; [reflexivity | done]|]. split.
        -- intros [? _]%andb_prop. cbn [nonul]. by rewrite andb_true_r.
        -- by intros c [= <-].
    + split; [exists ws; split; [|done]; by rewrite append_cons, <- Hs|].
      split.
      * intros [Hc Hn]%andb_prop. cbn [nonul] in *. rewrite Hc. by apply IHn.
      * intros c Hc. by apply IHlast.
Qed.

(** X20: [read_cmdline] never ends the run.  It comes back with no text
    when the file cannot be opened or read; otherwise its text is the
    bytes read with every NUL turned into a space, less the white space
    at the end: it has no NUL and does not end with white space. *)
Theorem read_cmdline_text (os : World) (pid : Z) (tr : list event) :
  let fname := "/proc/" +:+ fmt_d pid +:+ "/cmdline" in
  exists got tr',
    read_cmdline os pid tr = (Ret got, tr')
    /\ match got with
       | None => read_file os fname = None \/ read_file os fname = Some None
       | Some text =>
         exists bytes ws,
           read_file os fname = Some (Some bytes)
           /\ map_string nul_to_space bytes = text +:+ ws
           /\ all_space ws = true
           /\ nonul text = true
           /\ forall c, last_char text = Some c -> isspace c = false
       end.
Proof.
  cbn zeta. unfold read_cmdline, bind, emit, ret.
  destruct (read_file os _) as [[bytes|]|].
  - destruct (close_file os _ =? 0); do 2 eexists; (split; [reflexivity|]);
      destruct (trim_right_spec (map_string nul_to_space bytes))
        as ((ws & Hs & Hws) & Hn & Hlast);
      exists bytes, ws; repeat split; try done;
      apply Hn, nonul_map_nul_to_space.
  - destruct (close_file os _ =? 0); do 2 eexists; (split; [reflexivity|]);
      by right.
  - do 2 eexists. split; [reflexivity|]. by left.
Qed.




Lemma check_dir_allowed_not_option cfg os d :
  check_dir_allowed cfg os d <> Fatal UnrecognizedOption.
Proof.
  unfold check_dir_allowed, check_allowed.
  destruct (negb _); [done|]. cbn [error_if res_bind].
  destruct (bool_decide _); [done|]. cbn [error_if res_bind].
  destruct (rootsdir_at cfg os _) as [last|]; [|done].
  destruct (Ascii.eqb last "/"); [done|]. cbn [error_if res_bind].
  destruct (lstat os d) as [m|]; [|done].
  destruct (S_ISLNK m); [done|]. cbn [error_if res_bind].
  by destruct (negb (S_ISDIR m)).
Qed.

(** X22: which option tokens [rpm] and [yum] refuse.  On a request of
    at least four arguments [rpm] reports an option that is not allowed
    exactly when argument 2 does not begin with [--root], and [yum]
    exactly when it does not begin with [--inst], the six bytes its
    comparison covers. *)
Theorem rpm_yum_option_refusal (cfg : Config) (os : World)
    (a0 a1 a2 a3 : string) (rest : list string) :
  let argv := a0 :: a1 :: a2 :: a3 :: rest in
  (outcome (do_rpm cfg os (argc_of argv) argv) = Fatal UnrecognizedOption
   <-> String.prefix "--root" a2 = false)
  /\ (outcome (do_yum cfg os (argc_of argv) argv) = Fatal UnrecognizedOption
      <-> String.prefix "--inst" a2 = false).
Proof.
  intros argv. subst argv.
  unfold outcome, do_rpm, do_yum, bind, lift, arg_matches, str.
  rewrite !(argc_of_ge 4) by (cbn [length]; lia).
  cbn [error_if lookup list_lookup res_bind].
  change (strncmp "--installroot" a2 6)
    with (strncmp ("--inst" +:+ "allroot") a2 (strlen "--inst")).
  rewrite strncmp_app_l, !strncmp_literal_n by done.
  pose proof (check_dir_allowed_not_option cfg os a3) as Hdir.
  split.
  - destruct (String.prefix "--root" a2); cbn [negb error_if]; [|done].
    split; [|done]. intros H. exfalso. revert H.
    destruct (check_dir_allowed cfg os a3) as [[]| | |]; try done.
    by rewrite do_command_spec.
  - destruct (String.prefix "--inst" a2); cbn [negb error_if]; [|done].
    split; [|done]. intros H. exfalso. revert H.
    destruct (check_dir_allowed cfg os a3) as [[]| | |]; try done.
    by rewrite do_command_spec.
Qed.

(** ** Inexact mount types, the vector read by [execve], and the reaper's
       own pid *)

(** C2: the option pair of a mount request is NOT held to the three
    documented pairs.  Each token is compared over the length of the
    literal only, so a pair that merely begins with [-t] and [proc], with
    [-t] and [devpts] or with [--bind] and [/dev] passes the type check,
    and with a destination that begins with the root the request reaches
    [/bin/mount]: [--bind /dev/../etc] is let through as if it were
    [--bind /dev]. *)
Theorem do_mount_accepts_inexact_tokens (cfg : Config) (os : World)
    (a0 a1 a2 a3 a4 : string) (rest : list string) :
  nonul (ROOTSDIR cfg) = true ->
  mount_type_allowed a2 a3 = true ->
  (exists dest,
      (if String.prefix "-t" a2 then rest !! 0%nat else Some a4) = Some dest
      /\ String.prefix (ROOTSDIR cfg) dest = true) ->
  outcome (do_mount cfg os (argc_of (a0 :: a1 :: a2 :: a3 :: a4 :: rest))
                    (a0 :: a1 :: a2 :: a3 :: a4 :: rest))
  = Exec "/bin/mount" (a1 :: a2 :: a3 :: a4 :: rest)
         (env_array (SanitizedEnvironment false (environ os))).
Proof.
  intros Hn Hallowed (dest & Hdest & Hroot).
  unfold outcome. rewrite do_mount_checks.
  assert (Hexec : (do_command cfg os "/bin/mount"
                     (drop 1 (a0 :: a1 :: a2 :: a3 :: a4 :: rest)) 0 []).1
                  = Exec "/bin/mount" (a1 :: a2 :: a3 :: a4 :: rest)
                      (env_array (SanitizedEnvironment false (environ os))))
    by (by rewrite do_command_spec, mac_preload_0).
  unfold mount_type_allowed in Hallowed.
  destruct (String.prefix "-t" a2) eqn:Et.
  - rewrite (prefix_t_not_bind a2 Et) in Hallowed |- *.
    cbn [andb orb] in Hallowed |- *. rewrite orb_false_r in Hallowed.
    rewrite Hdest, strncmp_literal, Hroot by done.
    destruct (String.prefix "proc" a3); [done|].
    cbn [orb] in Hallowed. by rewrite Hallowed.
  - cbn [andb orb] in Hallowed |- *. rewrite Hallowed.
    injection Hdest as <-. by rewrite strncmp_literal, Hroot.
Qed.

Lemma do_mount_accepts_inexact_tokens_witness :
  mount_type_allowed "--bind" "/dev/../etc" = true
  /\ (("--bind", "/dev/../etc")
        ∉ [("-t", "proc"); ("-t", "devpts"); ("--bind", "/dev")])
  /\ outcome (do_mount sample_cfg sample_os 5
                ["mock-helper"; "mount"; "--bind"; "/dev/../etc";
                 "/var/lib/mock/fedora/etc"])
     = Exec "/bin/mount"
         ["mount"; "--bind"; "/dev/../etc"; "/var/lib/mock/fedora/etc"]
         (env_array (SanitizedEnvironment false (environ sample_os))).
Proof.
  split; [reflexivity|]. split.
  - intros H. repeat (apply elem_of_cons in H as [H|H]; [discriminate H|]).
    by apply elem_of_nil in H.
  - apply (do_mount_accepts_inexact_tokens sample_cfg sample_os "mock-helper"
             "mount" "--bind" "/dev/../etc" "/var/lib/mock/fedora/etc" []);
      [reflexivity | reflexivity |].
    exists "/var/lib/mock/fedora/etc". split; reflexivity.
Defined.

Lemma env_vector_filled filled k beyond :
  env_vector (((Some <$> filled) ++ replicate k None) ++ beyond)
  = match k with
    | O => (fun more => filled ++ more) <$> env_vector beyond
    | S _ => Some filled
    end.
Proof.
  induction filled as [|entry filled IH]; cbn [fmap list_fmap app env_vector].
  - destruct k; cbn [replicate app env_vector]; [|done].
    by destruct (env_vector beyond).
  - cbn [fmap list_fmap app env_vector] in IH. rewrite IH.
    destruct k; [|done]. by destruct (env_vector beyond).
Qed.

Lemma caller_entries_all os :
  Forall (fun name => is_Some (getenv (environ os) name)) ALLOWED_ENV ->
  length (omap (caller_entry (environ os)) ALLOWED_ENV) = length ALLOWED_ENV.
Proof.
  intros Hset. apply length_omap_all, Forall_forall. intros name Hin.
  assert (nonul name = true) as Hn.
  { revert name Hin. apply Forall_forall. repeat constructor. }
  rewrite Forall_forall in Hset. destruct (Hset name Hin) as [p Hp].
  rewrite getenv_caller_entry in Hp by done.
  destruct (caller_entry (environ os) name); [eauto | done].
Qed.

Lemma caller_entries_some_unset os :
  Exists (fun name => getenv (environ os) name = None) ALLOWED_ENV ->
  (length (omap (caller_entry (environ os)) ALLOWED_ENV) < length ALLOWED_ENV)%nat.
Proof.
  intros Hunset. apply length_omap_lt.
  apply Exists_exists in Hunset as (name & Hin & Hnone).
  apply Exists_exists. exists name. split; [done|].
  assert (Forall (fun name => nonul name = true) ALLOWED_ENV) as Hn
    by (repeat constructor).
  rewrite Forall_forall in Hn. specialize (Hn name Hin).
  rewrite getenv_caller_entry in Hnone by done.
  by destruct (caller_entry (environ os) name).
Qed.

(** Unless the array is full, the vector [execve] reads is the sanitized
    environment and nothing else, whatever lies behind the array. *)
Lemma do_command_vector_terminated cfg os filename argv preload beyond :
  mac_preload cfg os preload = false
  \/ Exists (fun name => getenv (environ os) name = None) ALLOWED_ENV ->
  exists envp,
    outcome (do_command cfg os filename argv preload)
    = Exec filename argv envp
    /\ env_vector (envp ++ beyond)
       = Some (SanitizedEnvironment (mac_preload cfg os preload) (environ os)).
Proof.
  intros Hfree. eexists. split; [unfold outcome; by rewrite do_command_spec|].
  unfold env_array. rewrite env_vector_filled.
  pose proof (length_omap_bound (caller_entry (environ os)) ALLOWED_ENV) as Hle.
  assert (Hlen : (length (SanitizedEnvironment (mac_preload cfg os preload)
                            (environ os)) < 3 + ALLOWED_ENV_SIZE)%nat).
  { unfold SanitizedEnvironment. rewrite !length_app.
    change (length ALLOWED_ENV) with 6%nat in *. change ALLOWED_ENV_SIZE with 6%nat.
    destruct Hfree as [-> | Hunset%caller_entries_some_unset].
    - cbn [length]. lia.
    - change (length ALLOWED_ENV) with 6%nat in *.
      destruct (mac_preload cfg os preload); cbn [length]; lia. }
  destruct (3 + ALLOWED_ENV_SIZE - _)%nat eqn:E; [lia | done].
Qed.

(** C4: the vector handed to [execve] is NOT always the sanitized
    environment.  Where the preload entry is added and the caller has set
    all six allow-listed names, the nine entries fill the array, no null
    entry ends it, and [execve] reads on behind it: whatever word lies
    there is taken for one more entry of the vector, an entry that is
    neither fixed nor the caller's value of an allow-listed name. *)
Theorem do_command_vector_runs_past_array (cfg : Config) (os : World)
    (filename : string) (argv : list string) (preload : Z) :
  mac_preload cfg os preload = true ->
  Forall (fun name => is_Some (getenv (environ os) name)) ALLOWED_ENV ->
  exists envp,
    outcome (do_command cfg os filename argv preload) = Exec filename argv envp
    /\ envp = Some <$> SanitizedEnvironment true (environ os)
    /\ env_vector envp = None
    /\ forall (word : string) (beyond : list (option string)),
         env_vector (envp ++ Some word :: beyond)
         = (fun more => SanitizedEnvironment true (environ os) ++ word :: more)
             <$> env_vector beyond.
Proof.
  intros Hmac Hset. apply caller_entries_all in Hset as Hall.
  assert (Hfull : env_array (SanitizedEnvironment true (environ os))
                  = Some <$> SanitizedEnvironment true (environ os)).
  { unfold env_array, SanitizedEnvironment at 2.
    rewrite !length_app, Hall. cbn [length Nat.add Nat.sub ALLOWED_ENV_SIZE replicate].
    by rewrite app_nil_r. }
  exists (env_array (SanitizedEnvironment true (environ os))).
  split; [unfold outcome; by rewrite do_command_spec, Hmac|].
  split; [done|]. rewrite Hfull.
  pose proof (env_vector_filled (SanitizedEnvironment true (environ os)) 0) as Hv.
  cbn [replicate] in Hv. split.
  - specialize (Hv []). by rewrite !app_nil_r in Hv.
  - intros word beyond. specialize (Hv (Some word :: beyond)).
    rewrite app_nil_r in Hv. rewrite Hv. cbn [env_vector].
    by destruct (env_vector beyond).
Qed.

Lemma do_command_vector_runs_past_array_witness :
  exists envp,
    outcome (do_command sample_cfg sample_os "/usr/libexec/mock-yum"
               ["yum"; "--installroot"; "/var/lib/mock/fedora"] 1)
    = Exec "/usr/libexec/mock-yum"
        ["yum"; "--installroot"; "/var/lib/mock/fedora"] envp
    /\ env_vector envp = None
    /\ env_vector (envp ++ [Some "LD_LIBRARY_PATH=/tmp/evil"; None])
       = Some [ "PATH=/bin:/usr/bin:/usr/sbin"; "HOME=/root";
                "LD_PRELOAD=libselinux-mock.so"; "dist=.fc5";
                "ftp_proxy=http://proxy:3128"; "http_proxy=http://proxy:3128";
                "https_proxy=http://proxy:3128"; "no_proxy=localhost";
                "PS1=$ "; "LD_LIBRARY_PATH=/tmp/evil" ].
Proof.
  destruct (do_command_vector_runs_past_array sample_cfg sample_os
              "/usr/libexec/mock-yum"
              ["yum"; "--installroot"; "/var/lib/mock/fedora"] 1)
    as (envp & Hexec & Hfilled & Hnone & Hpast).
  - reflexivity.
  - repeat constructor; eexists; reflexivity.
  - exists envp. split; [exact Hexec|]. split; [exact Hnone|].
    rewrite (Hpast "LD_LIBRARY_PATH=/tmp/evil" [None]). reflexivity.
Defined.

Lemma orphanskill_scan_app os chrootdir len pre rest : forall tr,
  orphanskill_scan os chrootdir len (pre ++ rest) tr
  = (orphanskill_scan os chrootdir len pre ;;
     orphanskill_scan os chrootdir len rest) tr.
Proof.
  induction pre as [|ent pre IH]; intros tr; [done|].
  cbn [app orphanskill_scan]. unfold bind at 1 2 3.
  destruct (orphanskill_entry os chrootdir len ent tr) as [[[]| | |] tr1];
    try done.
Qed.

Lemma orphanskill_entry_self os chrootdir ent tr :
  d_type ent = DT_DIR ->
  nonul (d_name ent) = true ->
  pid_name (d_name ent) = true ->
  atoi (d_name ent) = Some (getpid os) ->
  readlink_target os ("/proc/" +:+ fmt_d (getpid os) +:+ "/root")
  = Some chrootdir ->
  orphanskill_entry os chrootdir (strlen chrootdir + 1) ent tr
  = (Fatal SelfChrooted, tr).
Proof.
  intros Hdir Hn Hname Hatoi Hlink. unfold orphanskill_entry.
  rewrite Hdir, Z.eqb_refl. cbn [negb].
  rewrite name_test, Hname, Hatoi by done. cbn [negb].
  rewrite (proc_root_fits _ (atoi_range _ _ Hatoi)).
  unfold readlink. rewrite Hlink. cbn [fmap option_fmap option_map].
  rewrite substring_short by (unfold strlen; lia).
  replace (strlen chrootdir + 1 - 1)%nat with (strlen chrootdir) by lia.
  rewrite Nat.eqb_refl. cbn [negb].
  change (strlen chrootdir) with (String.length chrootdir).
  rewrite memcmp_refl. cbn [Z.eqb negb].
  unfold orphanskill_pid, bind, lift. by rewrite Z.eqb_refl.
Qed.

(** C6: the reaper signals only processes whose root link has the given
    chroot path as its target, byte for byte and in full, and never
    itself; where the scan meets its own pid as such a match, the run of
    [do_orphanskill] ends there with the fatal error: the signals sent are
    those of the entries read before, none goes to the entry itself or to
    any entry after it. *)
Theorem do_orphanskill_kills_exact_root (cfg : Config) (os : World)
    (argc : Z) (argv : list string) :
  (forall pid sig,
      EvKill pid sig ∈ effects (do_orphanskill cfg os argc argv) ->
      (exists chrootdir,
          argv !! 2%nat = Some chrootdir
          /\ readlink_target os ("/proc/" +:+ fmt_d pid +:+ "/root")
             = Some chrootdir)
      /\ pid <> getpid os
      /\ sig = SIGKILL)
  /\ (forall chrootdir pre ent post,
         (argc <? 3) = false ->
         argv !! 2%nat = Some chrootdir ->
         check_dir_allowed cfg os chrootdir = Ret tt ->
         malloc_ok os = true ->
         proc_entries os = Some (pre ++ ent :: post) ->
         outcome (orphanskill_scan os chrootdir (strlen chrootdir + 1) pre)
         = Ret tt ->
         d_type ent = DT_DIR ->
         nonul (d_name ent) = true ->
         pid_name (d_name ent) = true ->
         atoi (d_name ent) = Some (getpid os) ->
         readlink_target os ("/proc/" +:+ fmt_d (getpid os) +:+ "/root")
         = Some chrootdir ->
         outcome (do_orphanskill cfg os argc argv) = Fatal SelfChrooted
         /\ effects (do_orphanskill cfg os argc argv)
            = effects (orphanskill_scan os chrootdir (strlen chrootdir + 1) pre))
  /\ (forall chrootdir ents ent,
         argv !! 2%nat = Some chrootdir ->
         proc_entries os = Some ents ->
         ent ∈ ents ->
         d_type ent = DT_DIR ->
         nonul (d_name ent) = true ->
         pid_name (d_name ent) = true ->
         atoi (d_name ent) = Some (getpid os) ->
         readlink_target os ("/proc/" +:+ fmt_d (getpid os) +:+ "/root")
         = Some chrootdir ->
         outcome (do_orphanskill cfg os argc argv) <> Ret tt).
Proof.
  split; [|split].
  - intros pid sig. apply do_orphanskill_signals_sound.
  - intros chrootdir pre ent post Hargc Harg Hcheck Hmalloc Hents Hpre
      Hdir Hn Hname Hatoi Hlink.
    unfold outcome, effects in *. unfold do_orphanskill, bind at 1 2 3 4 5 6 7 8, lift, str.
    rewrite Hargc, Harg, Hcheck, Hmalloc, Hents. cbn [error_if negb].
    rewrite !orphanskill_scan_app. unfold bind.
    destruct (orphanskill_scan os chrootdir (strlen chrootdir + 1) pre [])
      as [r tr1]. cbn [fst snd] in Hpre |- *. subst r.
    cbn [orphanskill_scan]. unfold bind.
    by rewrite (orphanskill_entry_self os chrootdir ent tr1).
  - intros chrootdir ents ent Harg Hents Hin Hdir Hn Hname Hatoi Hlink Hret.
    assert (Hkill : EvKill (getpid os) SIGKILL
                    ∈ effects (do_orphanskill cfg os argc argv)).
    { revert Hret. unfold outcome, effects, do_orphanskill, bind, lift, str.
      rewrite Harg, Hents.
      destruct (argc <? 3); cbn [error_if]; [done|].
      destruct (check_dir_allowed cfg os chrootdir) as [[]| | |]; try done.
      destruct (malloc_ok os); cbn [negb error_if]; [|done].
      by apply orphanskill_scan_signals with ent. }
    apply do_orphanskill_signals_sound in Hkill as (_ & Hne & _). done.
Qed.

Lemma do_orphanskill_kills_exact_root_witness :
  (EvKill 42 SIGKILL
   ∈ effects (do_orphanskill sample_cfg sample_os 3
                ["mock-helper"; "orphanskill"; "/var/lib/mock/fedora"]))
  /\ readlink_target sample_os "/proc/42/root" = Some "/var/lib/mock/fedora"
  /\ 42 <> getpid sample_os
  /\ outcome (do_orphanskill sample_cfg sample_os_self 3
                ["mock-helper"; "orphanskill"; "/var/lib/mock/fedora"])
     = Fatal SelfChrooted
  /\ effects (do_orphanskill sample_cfg sample_os_self 3
                ["mock-helper"; "orphanskill"; "/var/lib/mock/fedora"])
     = effects (orphanskill_scan sample_os_self "/var/lib/mock/fedora" 21
                  [ {| d_type := DT_DIR; d_name := "1" |};
                    {| d_type := DT_DIR; d_name := "self" |} ]).
Proof.
  pose proof (do_orphanskill_kills_exact_root sample_cfg sample_os 3
                ["mock-helper"; "orphanskill"; "/var/lib/mock/fedora"])
    as (Hsound & _ & _).
  pose proof (do_orphanskill_kills_exact_root sample_cfg sample_os_self 3
                ["mock-helper"; "orphanskill"; "/var/lib/mock/fedora"])
    as (_ & Hself & _).
  assert (Hkill : EvKill 42 SIGKILL
                  ∈ effects (do_orphanskill sample_cfg sample_os 3
                       ["mock-helper"; "orphanskill"; "/var/lib/mock/fedora"])).
  { apply list_elem_of_In. vm_compute. tauto. }
  destruct (Hsound 42 SIGKILL Hkill) as ((chrootdir & Harg & Hlink) & Hne & _).
  injection Harg as <-.
  split; [exact Hkill|]. split; [exact Hlink|]. split; [exact Hne|].
  apply (Hself "/var/lib/mock/fedora"
           [ {| d_type := DT_DIR; d_name := "1" |};
             {| d_type := DT_DIR; d_name := "self" |} ]
           {| d_type := DT_DIR; d_name := "42" |}
           [ {| d_type := DT_DIR; d_name := "43" |} ]); reflexivity.
Defined.
